(** * sas9api: a shallow embedding of the request facade

    The Python module [sas9api.py] offers one function per endpoint of a
    REST proxy.  Each function builds an endpoint path, fills a dictionary
    of query parameters, and delegates to [make_request], which performs one
    HTTP call through the [requests] library and unwraps the JSON answer.

    Strings are Rocq strings, read as sequences of code points below 256.
    Dictionaries of query parameters are [gmap string value].  Mutable
    objects (the parameter dictionaries and the JSON lists, among them the
    two default arguments of [make_request]) live in a store and are passed
    by reference. *)

From Stdlib Require Import ZArith Ascii String List.
From stdpp Require Import gmap strings list fin_maps pretty.

Open Scope string_scope.
Open Scope list_scope.

(** ** Python string methods used by the module *)

Module PyStr.

(** [str.isspace] on one character, for the code points below 256:
    TAB..CR, FS..US, SPACE, NEL and NBSP. *)
Definition isspace (c : ascii) : bool :=
  let n := nat_of_ascii c in
  (((9 <=? n) && (n <=? 13)) || ((28 <=? n) && (n <=? 32))
   || (n =? 133) || (n =? 160))%nat.

Fixpoint lstrip (s : string) : string :=
  match s with
  | EmptyString => EmptyString
  | String c s' => if isspace c then lstrip s' else s
  end.

Fixpoint rstrip (s : string) : string :=
  match s with
  | EmptyString => EmptyString
  | String c s' =>
      match rstrip s' with
      | EmptyString => if isspace c then EmptyString else String c EmptyString
      | r => String c r
      end
  end.

(** [s.strip()]: whitespace removed at both ends. *)
Definition strip (s : string) : string := lstrip (rstrip s).

(** [s.endswith(suffix)]: some tail of [s] is [suffix]. *)
Fixpoint endswith (s suffix : string) : bool :=
  (s =? suffix)%string
  || match s with
     | EmptyString => false
     | String _ s' => endswith s' suffix
     end.

(** [s.startswith(p)]. *)
Definition startswith (s p : string) : bool := String.prefix p s.

(** [s[:-1]], the string without its last character. *)
Fixpoint drop_last (s : string) : string :=
  match s with
  | EmptyString => EmptyString
  | String c EmptyString => EmptyString
  | String c s' => String c (drop_last s')
  end.

End PyStr.

Import PyStr.

(** ** [assemble_url] *)

(** [[
    if url.strip().endswith("/"):
        url = f"{url}{endpoint}"
    else:
        url = f"{url}/{endpoint}"
    return url
    ]] *)
Definition assemble_url (url endpoint : string) : string :=
  if endswith (strip url) "/" then url +:+ endpoint
  else url +:+ "/" +:+ endpoint.

(** The reading of "exactly one separator at the join point": the result
    is the base without its final separator (when it has one), one
    separator, and the endpoint, and no second separator sits on either
    side of that one. *)
Definition stem (url : string) : string :=
  if endswith url "/" then drop_last url else url.

Definition joined_once (url endpoint result : string) : bool :=
  (result =? stem url +:+ "/" +:+ endpoint)%string
  && negb (endswith (stem url) "/")
  && negb (startswith endpoint "/").

(** ** Python values, exceptions and the store *)

#[local] Set Warnings "-register-all".

(** Immutable values: what a query parameter holds and what
    [response.json()] returns.  [VNone] is [None], which is also what JSON
    [null] decodes to.  A float keeps its literal. *)
Inductive value : Type :=
  | VNone
  | VBool (b : bool)
  | VInt (n : Z)
  | VFloat (literal : string)
  | VStr (s : string)
  | VList (items : list value)
  | VDict (items : list (string * value)).

Definition is_None (v : value) : bool :=
  match v with VNone => true | _ => false end.

(** An optional string argument, [None] when left out. *)
Definition of_optional (o : option string) : value :=
  match o with Some s => VStr s | None => VNone end.

Inductive exn_class : Type :=
  | HTTPError            (* requests.exceptions.HTTPError *)
  | ConnectionError      (* requests.exceptions.ConnectionError *)
  | Timeout              (* requests.exceptions.Timeout *)
  | JSONDecodeError
  | KeyError
  | TypeError
  | UnboundLocalError
  | KeyboardInterrupt.   (* a BaseException that is not an Exception *)

Record exn : Type := Exn { exn_cls : exn_class; exn_str : string }.

(** [isinstance(e, HTTPError)] and [isinstance(e, Exception)]. *)
Definition is_HTTPError (e : exn) : bool :=
  match exn_cls e with HTTPError => true | _ => false end.

Definition is_Exception (e : exn) : bool :=
  match exn_cls e with KeyboardInterrupt => false | _ => true end.

(** What [print] writes: a formatted string, or [str(v)] of a value.  On
    the console [Str (VStr s)] and [Text s] are the same line; the two
    constructors keep apart which statement printed it. *)
Inductive line : Type :=
  | Text (s : string)
  | Str (v : value).

(** References into the store. *)
Definition loc := nat.

(** The arguments of one [requests.request] call, with the contents of the
    referenced objects at the time of the call. *)
Record request : Type := Request {
  req_method : string;
  req_url : string;
  req_params : gmap string value;
  req_data : string;
  req_json : list value
}.

(** What the module reads of a [requests.Response]: the status line, the
    final URL, and the outcome of [.json()] (the decoded body, or the
    decoder's complaint). *)
Record response : Type := Response {
  status_code : Z;
  reason : string;
  resp_url : string;
  json_body : string + value
}.

(** The interpreter state visible to the module: the mutable dictionaries
    and lists, the console, the calls of [requests.request] made so far
    (each recorded in [sent] as the request it hands to the library, which
    may put none or several on the wire), and the state of the remote
    side. *)
Record state (Remote : Type) : Type := State {
  dicts : list (gmap string value);
  lists : list (list value);
  stdout : list line;
  sent : list request;
  remote : Remote
}.
Arguments State {Remote}.
Arguments dicts {Remote}.
Arguments lists {Remote}.
Arguments stdout {Remote}.
Arguments sent {Remote}.
Arguments remote {Remote}.

(** The two default arguments of [make_request], [initial_params={}] and
    [json_data=[]], are evaluated once, when the [def] is executed: one
    dictionary and one list shared by every call that omits them. *)
Definition default_initial_params : loc := 0.
Definition default_json_data : loc := 0.

Definition module_loaded {Remote} (r : Remote) : state Remote :=
  State [∅] [[]] [] [] r.

(** ** Computations: state and exceptions *)

Inductive outcome (A : Type) : Type :=
  | Return (a : A)
  | Raise (e : exn).
Arguments Return {A}.
Arguments Raise {A}.

Definition M (Remote A : Type) : Type :=
  state Remote -> outcome A * state Remote.

Section Monad.
Context {Remote : Type}.

Definition ret {A} (a : A) : M Remote A := fun s => (Return a, s).

Definition bind {A B} (m : M Remote A) (k : A -> M Remote B) : M Remote B :=
  fun s => match m s with
           | (Return a, s') => k a s'
           | (Raise e, s') => (Raise e, s')
           end.

Definition raise {A} (e : exn) : M Remote A := fun s => (Raise e, s).

(** [try: m  except ... : h  else: k].  The handler sees every exception
    of [m]; the [else] part runs after a normal end of [m] and is not
    protected. *)
Definition try_except_else {A B} (m : M Remote A) (h : exn -> M Remote B)
    (k : A -> M Remote B) : M Remote B :=
  fun s => match m s with
           | (Return a, s') => k a s'
           | (Raise e, s') => h e s'
           end.

Definition print (l : line) : M Remote unit :=
  fun s => (Return tt,
            State (dicts s) (lists s) (stdout s ++ [l]) (sent s) (remote s)).

(** A dictionary display or [dict()]: a new object. *)
Definition new_dict (d : gmap string value) : M Remote loc :=
  fun s => (Return (length (dicts s)),
            State (dicts s ++ [d]) (lists s) (stdout s) (sent s) (remote s)).

(** [d[k] = v] on the dictionary at [l]. *)
Definition setitem (l : loc) (k : string) (v : value) : M Remote unit :=
  fun s => (Return tt,
            State (alter (insert k v) l (dicts s)) (lists s)
                  (stdout s) (sent s) (remote s)).

(** Reading through a reference.  Python references never dangle; the
    model reads an empty object where nothing was allocated. *)
Definition dict_at (s : state Remote) (l : loc) : gmap string value :=
  default ∅ (dicts s !! l).
Definition list_at (s : state Remote) (l : loc) : list value :=
  default [] (lists s !! l).
End Monad.

Notation "x <- m ;; k" := (bind m (fun x => k))
  (at level 100, m at next level, right associativity).
Notation "m ;;; k" := (bind m (fun _ => k))
  (at level 100, right associativity).

(** ** The [requests] library, as far as the module uses it *)

Section Client.
Context {Remote : Type}.

(** The network and the remote proxy: one request in, a response or an
    exception out, and the remote side possibly changed. *)
Variable serve : Remote -> request -> (exn + response) * Remote.

(** [requests.request(method, url=url, params=p, data=data, json=j)]
    reads its arguments (the library copies the parameters while it
    prepares the request and writes to none of them) and returns the
    response or raises what the library raised.  The call is recorded in
    [sent]. *)
Definition requests_request (method url : string) (params : loc)
    (data : string) (json : loc) : M Remote response :=
  fun s =>
    let req := Request method url (dict_at s params) data (list_at s json) in
    let '(answer, r) := serve (remote s) req in
    let s' := State (dicts s) (lists s) (stdout s) (sent s ++ [req]) r in
    match answer with
    | inl e => (Raise e, s')
    | inr resp => (Return resp, s')
    end.

(** [Response.raise_for_status]: an [HTTPError] for 4xx and 5xx.
    [[
    http_error_msg = ""
    if 400 <= self.status_code < 500:
        http_error_msg = f"{self.status_code} Client Error: {reason} for url: {self.url}"
    elif 500 <= self.status_code < 600:
        http_error_msg = f"{self.status_code} Server Error: {reason} for url: {self.url}"
    if http_error_msg:
        raise HTTPError(http_error_msg, response=self)
    ]] *)
Definition http_error_msg (r : response) : string :=
  if ((400 <=? status_code r) && (status_code r <? 500))%Z then
    pretty (status_code r) +:+ " Client Error: " +:+ reason r
    +:+ " for url: " +:+ resp_url r
  else if ((500 <=? status_code r) && (status_code r <? 600))%Z then
    pretty (status_code r) +:+ " Server Error: " +:+ reason r
    +:+ " for url: " +:+ resp_url r
  else "".

Definition raise_for_status (r : response) : M Remote unit :=
  if String.eqb (http_error_msg r) "" then ret tt
  else raise (Exn HTTPError (http_error_msg r)).

(** [Response.json]. *)
Definition response_json (r : response) : M Remote value :=
  match json_body r with
  | inr v => ret v
  | inl msg => raise (Exn JSONDecodeError msg)
  end.

(** ** Subscription [v[key]] with a string key *)

Fixpoint assoc (key : string) (items : list (string * value))
  : option value :=
  match items with
  | [] => None
  | (k, v) :: rest => if String.eqb k key then Some v else assoc key rest
  end.

Definition getitem (v : value) (key : string) : M Remote value :=
  match v with
  | VDict items =>
      match assoc key items with
      | Some x => ret x
      | None => raise (Exn KeyError key)
      end
  | VList _ => raise (Exn TypeError "list indices must be integers or slices, not str")
  | VStr _ => raise (Exn TypeError "string indices must be integers, not 'str'")
  | _ => raise (Exn TypeError "object is not subscriptable")
  end.

(** ** [make_request] *)

(** The two [except] clauses.  [response] is the local variable of that
    name: bound once [requests.request] has returned, unbound before. *)
Definition except_clauses (response : option response) (err : exn)
  : M Remote value :=
  if is_HTTPError err then
    (* except HTTPError as http_err: *)
    print (Text ("HTTP error occurred: " +:+ exn_str err)) ;;;
    match response with
    | None => raise (Exn UnboundLocalError "response")
    | Some r =>
        body <- response_json r ;;
        e <- getitem body "error" ;;
        print (Str e) ;;;
        ret VNone
    end
  else if is_Exception err then
    (* except Exception as err: *)
    print (Text ("Other error occurred: " +:+ exn_str err)) ;;;
    ret VNone
  else raise err.

(** [[
    try:
        response = requests.request(method, url=url, params=initial_params,
                                    data=data, json=json_data)
        response.raise_for_status()
    except HTTPError as http_err:
        print(f'HTTP error occurred: {http_err}')
        print(response.json()['error'])
    except Exception as err:
        print(f'Other error occurred: {err}')
    else:
        print('Success!')
        if only_payload:
            return response.json()["payload"]
        else:
            return response.json()
    ]]
    An omitted [initial_params] or [json_data] ([None] here) is the
    shared default object; callers that omit [data] pass its default, the
    empty string. *)
Definition make_request (method url : string) (initial_params : option loc)
    (data : string) (json_data : option loc) (only_payload : bool)
  : M Remote value :=
  let initial_params := default default_initial_params initial_params in
  let json_data := default default_json_data json_data in
  try_except_else
    (requests_request method url initial_params data json_data)
    (except_clauses None)
    (fun response =>
       try_except_else
         (raise_for_status response)
         (except_clauses (Some response))
         (fun _ =>
            print (Text "Success!") ;;;
            if only_payload then
              body <- response_json response ;;
              getitem body "payload"
            else response_json response)).

(** What [make_request] does once the library has answered. *)
Definition after_answer (only_payload : bool) (answer : exn + response)
  : M Remote value :=
  match answer with
  | inl e => except_clauses None e
  | inr response =>
      try_except_else
        (raise_for_status response)
        (except_clauses (Some response))
        (fun _ =>
           print (Text "Success!") ;;;
           if only_payload then
             body <- response_json response ;;
             getitem body "payload"
           else response_json response)
  end.

(** The failures that the two [except] clauses of [make_request] deal
    with, each with the lines it prints: a transport failure (an
    exception of the library other than [HTTPError], no response), and an
    HTTP failure (status 400 to 599) whose body is a JSON object with an
    ["error"] entry. *)
Inductive caught_failure : exn + response -> list line -> Prop :=
  | transport_failure (e : exn) :
      is_Exception e = true ->
      is_HTTPError e = false ->
      caught_failure (inl e) [Text ("Other error occurred: " +:+ exn_str e)]
  | http_failure (r : response) (fields : list (string * value))
        (err : value) :
      (400 <= status_code r < 600)%Z ->
      json_body r = inr (VDict fields) ->
      assoc "error" fields = Some err ->
      caught_failure (inr r)
        [Text ("HTTP error occurred: " +:+ http_error_msg r); Str err].

(** A computation that touches nothing but the console, and whose
    outcome and output do not depend on the state it starts in. *)
Definition console_only {A} (m : M Remote A) : Prop :=
  exists r out, forall s,
    m s = (r, State (dicts s) (lists s) (stdout s ++ out) (sent s)
                    (remote s)).

(** The request that a call of [make_request] hands to the library in
    state [s]. *)
Definition request_for (s : state Remote) (method url : string)
    (initial_params : option loc) (data : string) (json_data : option loc)
  : request :=
  Request method url
    (dict_at s (default default_initial_params initial_params)) data
    (list_at s (default default_json_data json_data)).
End Client.

(** ** Clients that cannot tell two states apart *)

(** Two states agree when the shared default dictionary, the lists and the
    remote side are the same in both; the other dictionaries and what was
    printed and sent so far may differ. *)
Definition agree {Remote} (s1 s2 : state Remote) : Prop :=
  dict_at s1 default_initial_params = dict_at s2 default_initial_params
  /\ lists s1 = lists s2
  /\ remote s1 = remote s2.

(** Two runs, started in [s1] and [s2], that return or raise the same,
    print the same lines, send the same request, allocate the same
    dictionaries, leave every object that existed before as it was, and
    leave the remote side in the same state. *)
Definition same_effect {Remote A} (s1 s2 : state Remote)
    (x1 x2 : outcome A * state Remote) : Prop :=
  x1.1 = x2.1
  /\ (exists out,
        stdout x1.2 = stdout s1 ++ out /\ stdout x2.2 = stdout s2 ++ out)
  /\ (exists req,
        sent x1.2 = sent s1 ++ [req] /\ sent x2.2 = sent s2 ++ [req])
  /\ (exists ds,
        dicts x1.2 = dicts s1 ++ ds /\ dicts x2.2 = dicts s2 ++ ds)
  /\ lists x1.2 = lists s1
  /\ lists x2.2 = lists s2
  /\ remote x1.2 = remote x2.2.

(** ** The endpoint functions *)

(** A dictionary display [{k1: v1, ..., kn: vn}], filled left to right. *)
Definition display (items : list (string * value)) : gmap string value :=
  fold_left (fun d kv => <[kv.1 := kv.2]> d) items ∅.

Definition default_server_notice : line :=
  Text ("The default Server Name from the configuration file will be used "
        +:+ "because neither 'server_name' nor ('server_url' and 'server_port') are specified!").

Section Endpoints.
Context {Remote : Type}.
Variable serve : Remote -> request -> (exn + response) * Remote.

Definition get_metadata_server_config (url : string) (only_payload : bool)
  : M Remote value :=
  let endpoint := "sas/" in
  make_request serve "GET" (assemble_url url endpoint) None "" None only_payload.

Definition get_license_info (url : string) (only_payload : bool)
  : M Remote value :=
  let endpoint := "sas/license" in
  make_request serve "GET" (assemble_url url endpoint) None "" None only_payload.

Definition get_workspace_server_list (url repository_name : string)
    (only_payload : bool) : M Remote value :=
  let endpoint := "sas/servers" in
  initial_params <- new_dict (display [("repositoryName", VStr repository_name)]) ;;
  make_request serve "GET" (assemble_url url endpoint)
    (Some initial_params) "" None only_payload.

Definition get_workspace_server_config (url server_name repository_name : string)
    (only_payload : bool) : M Remote value :=
  let endpoint := "sas/servers/" +:+ server_name in
  initial_params <- new_dict (display [("repositoryName", VStr repository_name)]) ;;
  make_request serve "GET" (assemble_url url endpoint)
    (Some initial_params) "" None only_payload.

Definition get_stp_server_list (url repository_name : string)
    (only_payload : bool) : M Remote value :=
  let endpoint := "sas/stp" in
  initial_params <- new_dict (display [("repositoryName", VStr repository_name)]) ;;
  make_request serve "GET" (assemble_url url endpoint)
    (Some initial_params) "" None only_payload.

Definition get_stp_server_config (url server_name repository_name : string)
    (only_payload : bool) : M Remote value :=
  let endpoint := "sas/stp/" +:+ server_name in
  initial_params <- new_dict (display [("repositoryName", VStr repository_name)]) ;;
  make_request serve "GET" (assemble_url url endpoint)
    (Some initial_params) "" None only_payload.

(** [[
    if server_name is not None:
        endpoint = f"sas/servers/{server_name}/cmd"
        initial_params["repositoryName"] = repository_name
    elif server_url is not None and server_port is not None:
        initial_params["serverUrl"] = server_url
        initial_params["serverPort"] = server_port
    else:
        print("The default Server Name ...")
    ]] *)
Definition execute_command (url command : string)
    (server_name : option string) (repository_name : string)
    (server_url : option string) (server_port : option value)
    (log_enabled only_payload : bool) : M Remote value :=
  initial_params <-
    (if log_enabled then new_dict (display [("logEnabled", VStr "true")])
     else new_dict (display [("logEnabled", VStr "false")])) ;;
  let endpoint := "sas/cmd" in
  endpoint <-
    match server_name, server_url, server_port with
    | Some server_name, _, _ =>
        let endpoint := "sas/servers/" +:+ server_name +:+ "/cmd" in
        setitem initial_params "repositoryName" (VStr repository_name) ;;;
        ret endpoint
    | None, Some server_url, Some server_port =>
        setitem initial_params "serverUrl" (VStr server_url) ;;;
        setitem initial_params "serverPort" server_port ;;;
        ret endpoint
    | None, _, _ =>
        print default_server_notice ;;;
        ret endpoint
    end ;;
  make_request serve "PUT" (assemble_url url endpoint)
    (Some initial_params) command None only_payload.

Definition get_user_list (url repository_name : string) (only_payload : bool)
  : M Remote value :=
  let endpoint := "sas/meta/users" in
  initial_params <- new_dict (display [("repositoryName", VStr repository_name)]) ;;
  make_request serve "GET" (assemble_url url endpoint)
    (Some initial_params) "" None only_payload.

Definition get_configured_user_info (url repository_name : string)
    (only_payload : bool) : M Remote value :=
  let endpoint := "sas/user" in
  initial_params <- new_dict (display [("repositoryName", VStr repository_name)]) ;;
  make_request serve "GET" (assemble_url url endpoint)
    (Some initial_params) "" None only_payload.

Definition get_user_info (url user_name repository_name : string)
    (only_payload : bool) : M Remote value :=
  let endpoint := "sas/meta/users/" +:+ user_name in
  initial_params <- new_dict (display [("repositoryName", VStr repository_name)]) ;;
  make_request serve "GET" (assemble_url url endpoint)
    (Some initial_params) "" None only_payload.

Definition get_group_list (url repository_name : string) (only_payload : bool)
  : M Remote value :=
  let endpoint := "sas/meta/groups" in
  initial_params <- new_dict (display [("repositoryName", VStr repository_name)]) ;;
  make_request serve "GET" (assemble_url url endpoint)
    (Some initial_params) "" None only_payload.

Definition get_group_info (url group_name repository_name : string)
    (only_payload : bool) : M Remote value :=
  let endpoint := "sas/meta/groups/" +:+ group_name in
  initial_params <- new_dict (display [("repositoryName", VStr repository_name)]) ;;
  make_request serve "GET" (assemble_url url endpoint)
    (Some initial_params) "" None only_payload.

Definition get_role_list (url repository_name : string) (only_payload : bool)
  : M Remote value :=
  let endpoint := "sas/meta/roles" in
  initial_params <- new_dict (display [("repositoryName", VStr repository_name)]) ;;
  make_request serve "GET" (assemble_url url endpoint)
    (Some initial_params) "" None only_payload.

Definition get_role_info (url role_name repository_name : string)
    (only_payload : bool) : M Remote value :=
  let endpoint := "sas/meta/roles/" +:+ role_name in
  initial_params <- new_dict (display [("repositoryName", VStr repository_name)]) ;;
  make_request serve "GET" (assemble_url url endpoint)
    (Some initial_params) "" None only_payload.

Definition get_library_list (url : string)
    (server_name : option string) (repository_name : string)
    (server_url : option string) (server_port : option value)
    (only_payload : bool) : M Remote value :=
  initial_params <- new_dict ∅ ;;
  let endpoint := "sas/libraries" in
  endpoint <-
    match server_name, server_url, server_port with
    | Some server_name, _, _ =>
        let endpoint := "sas/servers/" +:+ server_name +:+ "/libraries" in
        setitem initial_params "repositoryName" (VStr repository_name) ;;;
        ret endpoint
    | None, Some server_url, Some server_port =>
        setitem initial_params "serverUrl" (VStr server_url) ;;;
        setitem initial_params "serverPort" server_port ;;;
        ret endpoint
    | None, _, _ =>
        print default_server_notice ;;;
        ret endpoint
    end ;;
  make_request serve "GET" (assemble_url url endpoint)
    (Some initial_params) "" None only_payload.

Definition get_library_info (url library_name : string)
    (server_name : option string) (repository_name : string)
    (server_url : option string) (server_port : option value)
    (only_payload : bool) : M Remote value :=
  initial_params <- new_dict ∅ ;;
  let endpoint := "sas/libraries/" +:+ library_name in
  endpoint <-
    match server_name, server_url, server_port with
    | Some server_name, _, _ =>
        let endpoint :=
          "sas/servers/" +:+ server_name +:+ "/libraries/" +:+ library_name in
        setitem initial_params "repositoryName" (VStr repository_name) ;;;
        ret endpoint
    | None, Some server_url, Some server_port =>
        setitem initial_params "serverUrl" (VStr server_url) ;;;
        setitem initial_params "serverPort" server_port ;;;
        ret endpoint
    | None, _, _ =>
        print default_server_notice ;;;
        ret endpoint
    end ;;
  make_request serve "GET" (assemble_url url endpoint)
    (Some initial_params) "" None only_payload.

Definition create_library
    (url server_name library_name engine display_name path location
     repository_name : string) (is_preassigned only_payload : bool)
  : M Remote value :=
  let endpoint :=
    "sas/servers/" +:+ server_name +:+ "/libraries/" +:+ library_name in
  initial_params <-
    new_dict (display [("engine", VStr engine);
                       ("displayName", VStr display_name);
                       ("path", VStr path);
                       ("location", VStr location);
                       ("repositoryName", VStr repository_name)]) ;;
  (if is_preassigned then setitem initial_params "isPreassigned" (VStr "true")
   else setitem initial_params "isPreassigned" (VStr "false")) ;;;
  make_request serve "POST" (assemble_url url endpoint)
    (Some initial_params) "" None only_payload.

Definition delete_library (url server_name library_name repository_name : string)
    (only_payload : bool) : M Remote value :=
  let endpoint :=
    "sas/servers/" +:+ server_name +:+ "/libraries/" +:+ library_name in
  initial_params <- new_dict (display [("repositoryName", VStr repository_name)]) ;;
  make_request serve "DELETE" (assemble_url url endpoint)
    (Some initial_params) "" None only_payload.

(** In the two dataset queries the first branch rebinds
    [initial_params] to a new display instead of storing into the
    dictionary made by [dict()]. *)
Definition get_dataset_list (url library_name : string)
    (server_name : option string) (repository_name : string)
    (server_url : option string) (server_port : option value)
    (only_payload : bool) : M Remote value :=
  initial_params <- new_dict ∅ ;;
  let endpoint := "sas/libraries/" +:+ library_name +:+ "/datasets" in
  target <-
    match server_name, server_url, server_port with
    | Some server_name, _, _ =>
        let endpoint :=
          "sas/servers/" +:+ server_name +:+ "/libraries/" +:+ library_name
          +:+ "/datasets" in
        initial_params <-
          new_dict (display [("repositoryName", VStr repository_name)]) ;;
        ret (endpoint, initial_params)
    | None, Some server_url, Some server_port =>
        setitem initial_params "serverUrl" (VStr server_url) ;;;
        setitem initial_params "serverPort" server_port ;;;
        ret (endpoint, initial_params)
    | None, _, _ =>
        print default_server_notice ;;;
        ret (endpoint, initial_params)
    end ;;
  let '(endpoint, initial_params) := target in
  make_request serve "GET" (assemble_url url endpoint)
    (Some initial_params) "" None only_payload.

Definition get_dataset_info (url library_name dataset_name : string)
    (server_name : option string) (repository_name : string)
    (server_url : option string) (server_port : option value)
    (only_payload : bool) : M Remote value :=
  initial_params <- new_dict ∅ ;;
  let endpoint :=
    "sas/libraries/" +:+ library_name +:+ "/datasets/" +:+ dataset_name in
  target <-
    match server_name, server_url, server_port with
    | Some server_name, _, _ =>
        let endpoint :=
          "sas/servers/" +:+ server_name +:+ "/libraries/" +:+ library_name
          +:+ "/datasets/" +:+ dataset_name in
        initial_params <-
          new_dict (display [("repositoryName", VStr repository_name)]) ;;
        ret (endpoint, initial_params)
    | None, Some server_url, Some server_port =>
        setitem initial_params "serverUrl" (VStr server_url) ;;;
        setitem initial_params "serverPort" server_port ;;;
        ret (endpoint, initial_params)
    | None, _, _ =>
        print default_server_notice ;;;
        ret (endpoint, initial_params)
    end ;;
  let '(endpoint, initial_params) := target in
  make_request serve "GET" (assemble_url url endpoint)
    (Some initial_params) "" None only_payload.

Definition retrieve_data (url library_name dataset_name : string)
    (server_name : option string) (repository_name : string)
    (server_url : option string) (server_port : option value)
    (limit offset : Z) (filter_ : option string) (only_payload : bool)
  : M Remote value :=
  initial_params <-
    new_dict (display [("limit", VInt limit); ("offset", VInt offset)]) ;;
  let endpoint :=
    "sas/libraries/" +:+ library_name +:+ "/datasets/" +:+ dataset_name
    +:+ "/data" in
  match filter_ with
  | Some filter_ => setitem initial_params "filter" (VStr filter_)
  | None => ret tt
  end ;;;
  endpoint <-
    match server_name, server_url, server_port with
    | Some server_name, _, _ =>
        let endpoint :=
          "sas/servers/" +:+ server_name +:+ "/libraries/" +:+ library_name
          +:+ "/datasets/" +:+ dataset_name +:+ "/data" in
        setitem initial_params "repositoryName" (VStr repository_name) ;;;
        ret endpoint
    | None, Some server_url, Some server_port =>
        setitem initial_params "serverUrl" (VStr server_url) ;;;
        setitem initial_params "serverPort" server_port ;;;
        ret endpoint
    | None, _, _ =>
        print default_server_notice ;;;
        ret endpoint
    end ;;
  make_request serve "GET" (assemble_url url endpoint)
    (Some initial_params) "" None only_payload.

(** [json_data] is the caller's list, passed on by reference. *)
Definition insert_data (url library_name dataset_name : string)
    (json_data : loc)
    (server_name : option string) (repository_name : string)
    (server_url : option string) (server_port : option value)
    (by_key : option string) (only_payload : bool) : M Remote value :=
  initial_params <- new_dict ∅ ;;
  match by_key with
  | Some by_key => setitem initial_params "byKey" (VStr by_key)
  | None => ret tt
  end ;;;
  let endpoint :=
    "sas/libraries/" +:+ library_name +:+ "/datasets/" +:+ dataset_name
    +:+ "/data" in
  endpoint <-
    match server_name, server_url, server_port with
    | Some server_name, _, _ =>
        let endpoint :=
          "sas/servers/" +:+ server_name +:+ "/libraries/" +:+ library_name
          +:+ "/datasets/" +:+ dataset_name +:+ "/data" in
        setitem initial_params "repositoryName" (VStr repository_name) ;;;
        ret endpoint
    | None, Some server_url, Some server_port =>
        setitem initial_params "serverUrl" (VStr server_url) ;;;
        setitem initial_params "serverPort" server_port ;;;
        ret endpoint
    | None, _, _ =>
        print default_server_notice ;;;
        ret endpoint
    end ;;
  make_request serve "PUT" (assemble_url url endpoint)
    (Some initial_params) "" (Some json_data) only_payload.

Definition replace_all_data (url library_name dataset_name : string)
    (json_data : loc)
    (server_name : option string) (repository_name : string)
    (server_url : option string) (server_port : option value)
    (only_payload : bool) : M Remote value :=
  initial_params <- new_dict ∅ ;;
  let endpoint :=
    "sas/libraries/" +:+ library_name +:+ "/datasets/" +:+ dataset_name
    +:+ "/data" in
  endpoint <-
    match server_name, server_url, server_port with
    | Some server_name, _, _ =>
        let endpoint :=
          "sas/servers/" +:+ server_name +:+ "/libraries/" +:+ library_name
          +:+ "/datasets/" +:+ dataset_name +:+ "/data" in
        setitem initial_params "repositoryName" (VStr repository_name) ;;;
        ret endpoint
    | None, Some server_url, Some server_port =>
        setitem initial_params "serverUrl" (VStr server_url) ;;;
        setitem initial_params "serverPort" server_port ;;;
        ret endpoint
    | None, _, _ =>
        print default_server_notice ;;;
        ret endpoint
    end ;;
  make_request serve "POST" (assemble_url url endpoint)
    (Some initial_params) "" (Some json_data) only_payload.

Definition delete_dataset (url library_name dataset_name : string)
    (server_name : option string) (repository_name : string)
    (server_url : option string) (server_port : option value)
    (only_payload : bool) : M Remote value :=
  initial_params <- new_dict ∅ ;;
  let endpoint :=
    "sas/libraries/" +:+ library_name +:+ "/datasets/" +:+ dataset_name
    +:+ "/data" in
  endpoint <-
    match server_name, server_url, server_port with
    | Some server_name, _, _ =>
        let endpoint :=
          "sas/servers/" +:+ server_name +:+ "/libraries/" +:+ library_name
          +:+ "/datasets/" +:+ dataset_name +:+ "/data" in
        setitem initial_params "repositoryName" (VStr repository_name) ;;;
        ret endpoint
    | None, Some server_url, Some server_port =>
        setitem initial_params "serverUrl" (VStr server_url) ;;;
        setitem initial_params "serverPort" server_port ;;;
        ret endpoint
    | None, _, _ =>
        print default_server_notice ;;;
        ret endpoint
    end ;;
  make_request serve "DELETE" (assemble_url url endpoint)
    (Some initial_params) "" None only_payload.

Definition find_object (url repository_name : string)
    (location : option string) (location_recursive : bool)
    (object_id object_type public_type name_equals name_starts
     name_contains name_regex description_contains description_regex
     created_gt created_lt modified_gt modified_lt table_libref
     table_dbms : option string)
    (include_associations include_permissions only_payload : bool)
  : M Remote value :=
  let endpoint := "sas/meta/search" in
  initial_params <-
    new_dict (display [("repositoryName", VStr repository_name);
                       ("location", of_optional location);
                       ("locationRecursive", VBool location_recursive);
                       ("objectID", of_optional object_id);
                       ("objectType", of_optional object_type);
                       ("publicType", of_optional public_type);
                       ("nameEquals", of_optional name_equals);
                       ("nameStarts", of_optional name_starts);
                       ("nameContains", of_optional name_contains);
                       ("nameRegex", of_optional name_regex);
                       ("descriptionContains", of_optional description_contains);
                       ("descriptionRegex", of_optional description_regex);
                       ("createdGt", of_optional created_gt);
                       ("createdLt", of_optional created_lt);
                       ("modifiedGt", of_optional modified_gt);
                       ("modifiedLt", of_optional modified_lt);
                       ("tableLibref", of_optional table_libref);
                       ("tableDBMS", of_optional table_dbms);
                       ("includeAssociations", VBool include_associations);
                       ("includePermissions", VBool include_permissions)]) ;;
  make_request serve "GET" (assemble_url url endpoint)
    (Some initial_params) "" None only_payload.

(** The display sends [public_type] under ["destinationLocation"] and
    [destination_location] under ["publicType"]; the comment in the
    source says that this answers an error on the server side. *)
Definition move_object
    (url source_location source_name public_type destination_location
     repository_name : string) (only_payload : bool) : M Remote value :=
  let endpoint := "sas/meta/objects/move" in
  initial_params <-
    new_dict (display [("sourceLocation", VStr source_location);
                       ("sourceName", VStr source_name);
                       ("destinationLocation", VStr public_type);
                       ("publicType", VStr destination_location);
                       ("repositoryName", VStr repository_name)]) ;;
  make_request serve "POST" (assemble_url url endpoint)
    (Some initial_params) "" None only_payload.

Definition delete_object
    (url source_location source_name public_type repository_name : string)
    (only_payload : bool) : M Remote value :=
  let endpoint := "sas/meta/objects/delete" in
  initial_params <-
    new_dict (display [("sourceLocation", VStr source_location);
                       ("sourceName", VStr source_name);
                       ("publicType", VStr public_type);
                       ("repositoryName", VStr repository_name)]) ;;
  make_request serve "POST" (assemble_url url endpoint)
    (Some initial_params) "" None only_payload.
End Endpoints.

(** ** Calls of the public functions *)

(** The nine functions that resolve a target server from [server_name],
    [server_url] and [server_port], with the arguments particular to
    each. *)
Inductive scoped_op : Type :=
  | ExecuteCommand (command : string) (log_enabled : bool)
  | GetLibraryList
  | GetLibraryInfo (library_name : string)
  | GetDatasetList (library_name : string)
  | GetDatasetInfo (library_name dataset_name : string)
  | RetrieveData (library_name dataset_name : string) (limit offset : Z)
                 (filter_ : option string)
  | InsertData (library_name dataset_name : string) (json_data : loc)
               (by_key : option string)
  | ReplaceAllData (library_name dataset_name : string) (json_data : loc)
  | DeleteDataset (library_name dataset_name : string).

(** The filter criteria of [find_object], in the order of its signature. *)
Record criteria : Type := Criteria {
  location : option string;
  location_recursive : bool;
  object_id : option string;
  object_type : option string;
  public_type : option string;
  name_equals : option string;
  name_starts : option string;
  name_contains : option string;
  name_regex : option string;
  description_contains : option string;
  description_regex : option string;
  created_gt : option string;
  created_lt : option string;
  modified_gt : option string;
  modified_lt : option string;
  table_libref : option string;
  table_dbms : option string;
  include_associations : bool;
  include_permissions : bool
}.

(** One call of an endpoint function by a client of the module. *)
Inductive call : Type :=
  | GetMetadataServerConfig (url : string) (only_payload : bool)
  | GetLicenseInfo (url : string) (only_payload : bool)
  | GetWorkspaceServerList (url repository_name : string) (only_payload : bool)
  | GetWorkspaceServerConfig (url server_name repository_name : string)
                             (only_payload : bool)
  | GetStpServerList (url repository_name : string) (only_payload : bool)
  | GetStpServerConfig (url server_name repository_name : string)
                       (only_payload : bool)
  | GetUserList (url repository_name : string) (only_payload : bool)
  | GetConfiguredUserInfo (url repository_name : string) (only_payload : bool)
  | GetUserInfo (url user_name repository_name : string) (only_payload : bool)
  | GetGroupList (url repository_name : string) (only_payload : bool)
  | GetGroupInfo (url group_name repository_name : string) (only_payload : bool)
  | GetRoleList (url repository_name : string) (only_payload : bool)
  | GetRoleInfo (url role_name repository_name : string) (only_payload : bool)
  | CreateLibrary (url server_name library_name engine display_name path
                   location repository_name : string)
                  (is_preassigned only_payload : bool)
  | DeleteLibrary (url server_name library_name repository_name : string)
                  (only_payload : bool)
  | Scoped (op : scoped_op) (url : string) (server_name : option string)
           (repository_name : string) (server_url : option string)
           (server_port : option value) (only_payload : bool)
  | FindObject (url repository_name : string) (c : criteria)
               (only_payload : bool)
  | MoveObject (url source_location source_name public_type
                destination_location repository_name : string)
               (only_payload : bool)
  | DeleteObject (url source_location source_name public_type
                  repository_name : string) (only_payload : bool).

Section Calls.
Context {Remote : Type}.
Variable serve : Remote -> request -> (exn + response) * Remote.

Definition call_scoped (op : scoped_op) (url : string)
    (server_name : option string) (repository_name : string)
    (server_url : option string) (server_port : option value)
    (only_payload : bool) : M Remote value :=
  match op with
  | ExecuteCommand command log_enabled =>
      execute_command serve url command server_name repository_name
        server_url server_port log_enabled only_payload
  | GetLibraryList =>
      get_library_list serve url server_name repository_name
        server_url server_port only_payload
  | GetLibraryInfo library_name =>
      get_library_info serve url library_name server_name repository_name
        server_url server_port only_payload
  | GetDatasetList library_name =>
      get_dataset_list serve url library_name server_name repository_name
        server_url server_port only_payload
  | GetDatasetInfo library_name dataset_name =>
      get_dataset_info serve url library_name dataset_name server_name
        repository_name server_url server_port only_payload
  | RetrieveData library_name dataset_name limit offset filter_ =>
      retrieve_data serve url library_name dataset_name server_name
        repository_name server_url server_port limit offset filter_
        only_payload
  | InsertData library_name dataset_name json_data by_key =>
      insert_data serve url library_name dataset_name json_data server_name
        repository_name server_url server_port by_key only_payload
  | ReplaceAllData library_name dataset_name json_data =>
      replace_all_data serve url library_name dataset_name json_data
        server_name repository_name server_url server_port only_payload
  | DeleteDataset library_name dataset_name =>
      delete_dataset serve url library_name dataset_name server_name
        repository_name server_url server_port only_payload
  end.

Definition run_call (c : call) : M Remote value :=
  match c with
  | GetMetadataServerConfig url p => get_metadata_server_config serve url p
  | GetLicenseInfo url p => get_license_info serve url p
  | GetWorkspaceServerList url r p => get_workspace_server_list serve url r p
  | GetWorkspaceServerConfig url n r p =>
      get_workspace_server_config serve url n r p
  | GetStpServerList url r p => get_stp_server_list serve url r p
  | GetStpServerConfig url n r p => get_stp_server_config serve url n r p
  | GetUserList url r p => get_user_list serve url r p
  | GetConfiguredUserInfo url r p => get_configured_user_info serve url r p
  | GetUserInfo url n r p => get_user_info serve url n r p
  | GetGroupList url r p => get_group_list serve url r p
  | GetGroupInfo url n r p => get_group_info serve url n r p
  | GetRoleList url r p => get_role_list serve url r p
  | GetRoleInfo url n r p => get_role_info serve url n r p
  | CreateLibrary url sn ln e dn pa lo r pre p =>
      create_library serve url sn ln e dn pa lo r pre p
  | DeleteLibrary url sn ln r p => delete_library serve url sn ln r p
  | Scoped op url sn r su sp p => call_scoped op url sn r su sp p
  | FindObject url r c p =>
      find_object serve url r (location c) (location_recursive c)
        (object_id c) (object_type c) (public_type c) (name_equals c)
        (name_starts c) (name_contains c) (name_regex c)
        (description_contains c) (description_regex c) (created_gt c)
        (created_lt c) (modified_gt c) (modified_lt c) (table_libref c)
        (table_dbms c) (include_associations c) (include_permissions c) p
  | MoveObject url sl sn pt dl r p => move_object serve url sl sn pt dl r p
  | DeleteObject url sl sn pt r p => delete_object serve url sl sn pt r p
  end.

(** What a client of the module can do: call an endpoint function, or
    call [make_request] itself. *)
Inductive client_call : Type :=
  | Endpoint (c : call)
  | MakeRequest (method url : string) (initial_params : option loc)
                (data : string) (json_data : option loc)
                (only_payload : bool).

Definition run_client_call (c : client_call) : M Remote value :=
  match c with
  | Endpoint c => run_call c
  | MakeRequest method url initial_params data json_data only_payload =>
      make_request serve method url initial_params data json_data
        only_payload
  end.

(** A client issuing calls one after the other; an exception of one call
    is caught by the client, which goes on. *)
Fixpoint run_client (cs : list client_call) (s : state Remote)
  : state Remote :=
  match cs with
  | [] => s
  | c :: cs' => run_client cs' (run_client_call c s).2
  end.
End Calls.

(** A state in which the module has been loaded: the two default objects
    exist, and are empty. *)
Definition loaded {Remote} (s : state Remote) : Prop :=
  dicts s !! default_initial_params = Some ∅
  /\ lists s !! default_json_data = Some [].

(** The state of a client that has loaded the module and built the lists
    [data] it is going to pass as [json_data]. *)
Definition client_start {Remote} (r : Remote) (data : list (list value))
  : state Remote :=
  State [∅] ([] :: data) [] [] r.

(** The path below ["sas/"] that each target-scoped function addresses. *)
Definition resource (op : scoped_op) : string :=
  match op with
  | ExecuteCommand _ _ => "cmd"
  | GetLibraryList => "libraries"
  | GetLibraryInfo lib => "libraries/" +:+ lib
  | GetDatasetList lib => "libraries/" +:+ lib +:+ "/datasets"
  | GetDatasetInfo lib ds => "libraries/" +:+ lib +:+ "/datasets/" +:+ ds
  | RetrieveData lib ds _ _ _
  | InsertData lib ds _ _
  | ReplaceAllData lib ds _
  | DeleteDataset lib ds =>
      "libraries/" +:+ lib +:+ "/datasets/" +:+ ds +:+ "/data"
  end.

(** Modelled from the spec: the serialisation of the query-parameter
    mapping into the query string is done inside the [requests] library,
    which is not part of the sources.  The specification of the request
    executor says that [None] values are omitted rather than written as
    the text "None"; every other entry is sent under its key. *)
Definition encode_params (params : gmap string value) : gmap string value :=
  filter (fun kv => is_None kv.2 = false) params.

(** The query string of a request as it goes on the wire. *)
Definition wire_query (r : request) : gmap string value :=
  encode_params (req_params r).

(** ** Mock servers for the examples *)

(** A remote side without state that gives the same answer to every
    request. *)
Definition mock (answer : exn + response)
  : unit -> request -> (exn + response) * unit :=
  fun r _ => (answer, r).

(** The envelope [{"status": 200, "error": null, "payload": {"x": 1}}]. *)
Definition envelope_x1 : value :=
  VDict [("status", VInt 200); ("error", VNone);
         ("payload", VDict [("x", VInt 1)])].

Definition ok_envelope : response :=
  Response 200 "OK" "http://host/api/sas/" (inr envelope_x1).

(** A 404 answer with body [{"error": "not found"}]. *)
Definition not_found : response :=
  Response 404 "Not Found" "http://host/api/sas/"
           (inr (VDict [("error", VStr "not found")])).

(** A 200 answer whose body is not JSON. *)
Definition ok_not_json : response :=
  Response 200 "OK" "http://host/api/sas/"
           (inl "Expecting value: line 1 column 1 (char 0)").

(** A 502 answer of a gateway, with an HTML body. *)
Definition bad_gateway : response :=
  Response 502 "Bad Gateway" "http://host/api/sas/"
           (inl "Expecting value: line 1 column 1 (char 0)").

(** A 302 answer without a [Location] header, which the library hands
    back as it is, carrying an envelope. *)
Definition found_without_location : response :=
  Response 302 "Found" "http://host/api/sas/" (inr envelope_x1).

Definition connection_refused : exn :=
  Exn ConnectionError "Connection refused".


(** ** Further vocabulary for the properties *)

(** A string of whitespace only, the empty string included. *)
Fixpoint all_space (s : string) : bool :=
  match s with
  | EmptyString => true
  | String c s' => isspace c && all_space s'
  end.

(** The [url] argument of a call. *)
Definition base_url (c : call) : string :=
  match c with
  | GetMetadataServerConfig url _ | GetLicenseInfo url _
  | GetWorkspaceServerList url _ _ | GetWorkspaceServerConfig url _ _ _
  | GetStpServerList url _ _ | GetStpServerConfig url _ _ _
  | GetUserList url _ _ | GetConfiguredUserInfo url _ _
  | GetUserInfo url _ _ _ | GetGroupList url _ _ | GetGroupInfo url _ _ _
  | GetRoleList url _ _ | GetRoleInfo url _ _ _
  | CreateLibrary url _ _ _ _ _ _ _ _ _ | DeleteLibrary url _ _ _ _
  | Scoped _ url _ _ _ _ _ | FindObject url _ _ _
  | MoveObject url _ _ _ _ _ _ | DeleteObject url _ _ _ _ _ => url
  end.

(** The eleven look-ups in the metadata (servers, stored-process servers,
    users, groups and roles, listed or by name), with the
    [repository_name] of the call. *)
Definition metadata_lookup (c : call) : option string :=
  match c with
  | GetWorkspaceServerList _ r _ | GetWorkspaceServerConfig _ _ r _
  | GetStpServerList _ r _ | GetStpServerConfig _ _ r _
  | GetUserList _ r _ | GetConfiguredUserInfo _ r _ | GetUserInfo _ _ r _
  | GetGroupList _ r _ | GetGroupInfo _ _ r _
  | GetRoleList _ r _ | GetRoleInfo _ _ r _ => Some r
  | _ => None
  end.

(** * Properties *)

(** ** The URL assembler *)

Module PyStrFacts.

Lemma append_cons (x : ascii) (a b : string) :
  String x a +:+ b = String x (a +:+ b).
Proof. reflexivity. Qed.

Lemma append_assoc (a b c : string) : (a +:+ b) +:+ c = a +:+ b +:+ c.
Proof.
  induction a as [|x a IH]; [reflexivity|].
  rewrite !append_cons. now f_equal.
Qed.

Lemma isspace_slash : isspace "/" = false.
Proof. reflexivity. Qed.

(** Leading whitespace plays no part in whether a string ends with the
    separator. *)
Lemma endswith_lstrip (s : string) :
  endswith (lstrip s) "/" = endswith s "/".
Proof.
  induction s as [|c s IH]; [reflexivity|].
  cbn [lstrip]. destruct (isspace c) eqn:Hc; [|reflexivity].
  rewrite IH. cbn [endswith].
  destruct (String.eqb_spec (String c s) "/") as [E|_]; [|reflexivity].
  injection E as -> _. now rewrite isspace_slash in Hc.
Qed.

Lemma endswith_strip (s : string) :
  rstrip s = s -> endswith (strip s) "/" = endswith s "/".
Proof. intros H. unfold strip. now rewrite H, endswith_lstrip. Qed.

(** A string that ends with the separator is its [drop_last] followed by
    the separator. *)
Lemma endswith_drop_last (s : string) :
  endswith s "/" = true -> s = drop_last s +:+ "/".
Proof.
  induction s as [|c s IH]; [discriminate|].
  cbn [endswith]. destruct (String.eqb_spec (String c s) "/") as [E|_].
  - injection E as -> ->. reflexivity.
  - cbn [orb]. intros H. destruct s as [|c' s']; [discriminate|].
    specialize (IH H). cbn [drop_last] in *. rewrite append_cons.
    now rewrite <- IH.
Qed.

Lemma endswith_two (t : string) :
  endswith (t +:+ "/") "//" = endswith t "/".
Proof.
  induction t as [|c t IH]; [reflexivity|].
  rewrite append_cons. cbn [endswith]. rewrite IH. f_equal.
  destruct (String.eqb_spec (String c (t +:+ "/")) "//") as [E|N],
           (String.eqb_spec (String c t) "/") as [E'|N']; try reflexivity.
  - destruct t as [|c' t'].
    { cbv [String.append] in E. injection E as ->. now elim N'. }
    rewrite append_cons in E. injection E as _ _ E. now destruct t'.
  - injection E' as -> ->. now elim N.
Qed.

End PyStrFacts.

Lemma assemble_url_cases (url endpoint : string) :
  assemble_url url endpoint =
  if endswith (strip url) "/" then url +:+ endpoint
  else url +:+ "/" +:+ endpoint.
Proof. reflexivity. Qed.

(** C1 as stated fails: a base that ends with two separators keeps both. *)
Lemma assemble_url_double_separator :
  assemble_url "http://host/api//" "sas/" = "http://host/api//sas/"
  /\ joined_once "http://host/api//" "sas/"
       (assemble_url "http://host/api//" "sas/") = false.
Proof. split; reflexivity. Qed.

(** C1, amended: for a base URL without trailing whitespace that does not
    end with two separators, and an endpoint that does not begin with one,
    [assemble_url] joins base and endpoint with exactly one separator,
    whether or not the base ends with one; ["http://host/api"] and
    ["http://host/api/"] joined with ["sas/"] both give
    ["http://host/api/sas/"]. *)
Theorem assemble_url_joined_once (url endpoint : string) :
  rstrip url = url ->
  endswith url "//" = false ->
  startswith endpoint "/" = false ->
  joined_once url endpoint (assemble_url url endpoint) = true
  /\ assemble_url "http://host/api" "sas/" = "http://host/api/sas/"
  /\ assemble_url "http://host/api/" "sas/" = "http://host/api/sas/".
Proof.
  intros Hws Htwo Hend. split; [|split; reflexivity].
  unfold joined_once, assemble_url, stem.
  rewrite (PyStrFacts.endswith_strip _ Hws), Hend.
  destruct (endswith url "/") eqn:Hs.
  - pose proof (PyStrFacts.endswith_drop_last _ Hs) as E.
    remember (drop_last url) as t eqn:Ht. clear Ht Hs Hws. subst url.
    rewrite PyStrFacts.endswith_two in Htwo.
    now rewrite Htwo, PyStrFacts.append_assoc, String.eqb_refl.
  - now rewrite Hs, String.eqb_refl.
Qed.

(** The base ["http://host/api/"] and the endpoint ["sas/"]. *)
Lemma assemble_url_joined_once_witness :
  joined_once "http://host/api/" "sas/"
    (assemble_url "http://host/api/" "sas/") = true
  /\ assemble_url "http://host/api" "sas/" = "http://host/api/sas/"
  /\ assemble_url "http://host/api/" "sas/" = "http://host/api/sas/".
Proof.
  apply (assemble_url_joined_once "http://host/api/" "sas/"); reflexivity.
Defined.


(** ** The request executor *)

Create HintDb console.

Section MakeRequestFacts.
Context {Remote : Type}.
Variable serve : Remote -> request -> (exn + response) * Remote.

Lemma console_only_ret {A} (a : A) : console_only (Remote:=Remote) (ret a).
Proof.
  exists (Return a), []. intros [d l o w r]. cbn. now rewrite app_nil_r.
Qed.

Lemma console_only_raise {A} (e : exn) :
  console_only (raise e : M Remote A).
Proof.
  exists (Raise e), []. intros [d l o w r]. cbn. now rewrite app_nil_r.
Qed.

Lemma console_only_print (l : line) :
  console_only (Remote:=Remote) (print l).
Proof. now exists (Return tt), [l]. Qed.

Lemma console_only_try {A B} (m : M Remote A) (h : exn -> M Remote B)
    (k : A -> M Remote B) :
  console_only m -> (forall e, console_only (h e)) ->
  (forall a, console_only (k a)) -> console_only (try_except_else m h k).
Proof.
  intros (r1 & o1 & E1) Hh Hk. unfold try_except_else.
  destruct r1 as [a|e].
  - destruct (Hk a) as (r2 & o2 & E2). exists r2, (o1 ++ o2).
    intros s. rewrite E1, E2. cbn. now rewrite <- app_assoc.
  - destruct (Hh e) as (r2 & o2 & E2). exists r2, (o1 ++ o2).
    intros s. rewrite E1, E2. cbn. now rewrite <- app_assoc.
Qed.

Lemma console_only_bind {A B} (m : M Remote A) (k : A -> M Remote B) :
  console_only m -> (forall a, console_only (k a)) ->
  console_only (bind m k).
Proof.
  intros Hm Hk.
  apply (console_only_try m (fun e => raise e) k Hm);
    [intros e; apply console_only_raise | exact Hk].
Qed.

Lemma console_only_response_json (r : response) :
  console_only (Remote:=Remote) (response_json r).
Proof.
  unfold response_json.
  destruct (json_body r); [apply console_only_raise | apply console_only_ret].
Qed.

Lemma console_only_getitem (v : value) (key : string) :
  console_only (Remote:=Remote) (getitem v key).
Proof.
  destruct v; cbn; try apply console_only_raise.
  destruct (assoc key items);
    [apply console_only_ret | apply console_only_raise].
Qed.

Lemma console_only_raise_for_status (r : response) :
  console_only (Remote:=Remote) (raise_for_status r).
Proof.
  unfold raise_for_status.
  destruct (String.eqb _ _);
    [apply console_only_ret | apply console_only_raise].
Qed.

#[local] Hint Resolve console_only_ret console_only_raise
  console_only_print console_only_response_json console_only_getitem
  console_only_raise_for_status : console.

Lemma console_only_except_clauses (resp : option response) (e : exn) :
  console_only (Remote:=Remote) (except_clauses resp e).
Proof.
  unfold except_clauses.
  destruct (is_HTTPError e); [|destruct (is_Exception e)].
  - apply console_only_bind; [auto with console|]. intros _.
    destruct resp; [|auto with console].
    repeat (apply console_only_bind; [auto with console|]; intros ?).
    auto with console.
  - apply console_only_bind; auto with console.
  - auto with console.
Qed.

Lemma console_only_after_answer (p : bool) (answer : exn + response) :
  console_only (Remote:=Remote) (after_answer p answer).
Proof.
  destruct answer as [e|resp]; cbn.
  - apply console_only_except_clauses.
  - apply console_only_try; [auto with console| |].
    + intros e. apply console_only_except_clauses.
    + intros _. apply console_only_bind; [auto with console|]. intros _.
      destruct p; [|auto with console].
      apply console_only_bind; auto with console.
Qed.

(** One call of [make_request]: [requests.request] is called once, with a
    request built from the arguments as they are in the store; the rest
    depends on the answer alone and only prints. *)
Lemma make_request_eq (method url : string) (ip : option loc)
    (data : string) (jd : option loc) (p : bool) (s : state Remote) :
  make_request serve method url ip data jd p s =
  let req := request_for s method url ip data jd in
  after_answer p (serve (remote s) req).1
    (State (dicts s) (lists s) (stdout s) (sent s ++ [req])
           (serve (remote s) req).2).
Proof.
  unfold make_request, try_except_else at 1, requests_request, request_for.
  cbn zeta. destruct (serve _ _) as [[e|resp] r]; reflexivity.
Qed.

Lemma make_request_state (method url : string) (ip : option loc)
    (data : string) (jd : option loc) (p : bool) (s : state Remote) :
  exists r out,
    make_request serve method url ip data jd p s =
    (r, State (dicts s) (lists s) (stdout s ++ out)
              (sent s ++ [request_for s method url ip data jd])
              (serve (remote s) (request_for s method url ip data jd)).2).
Proof.
  rewrite make_request_eq. cbv zeta.
  destruct (console_only_after_answer p
              (serve (remote s) (request_for s method url ip data jd)).1)
    as (r & out & E).
  exists r, out. now rewrite E.
Qed.

(** Two calls that hand the same request to the same remote side have
    the same effect, whatever else differs between the two states. *)
Lemma make_request_same_effect (s1 s2 t1 t2 : state Remote)
    (ds : list (gmap string value)) (o : list line)
    (method url : string) (ip1 ip2 : option loc) (data : string)
    (jd1 jd2 : option loc) (p : bool) :
  dicts t1 = dicts s1 ++ ds -> dicts t2 = dicts s2 ++ ds ->
  lists t1 = lists s1 -> lists t2 = lists s2 ->
  stdout t1 = stdout s1 ++ o -> stdout t2 = stdout s2 ++ o ->
  sent t1 = sent s1 -> sent t2 = sent s2 ->
  remote t1 = remote t2 ->
  request_for t1 method url ip1 data jd1
  = request_for t2 method url ip2 data jd2 ->
  same_effect s1 s2 (make_request serve method url ip1 data jd1 p t1)
                    (make_request serve method url ip2 data jd2 p t2).
Proof.
  intros Hd1 Hd2 Hl1 Hl2 Ho1 Ho2 Hs1 Hs2 Hr Hreq.
  rewrite !make_request_eq. cbv zeta. rewrite <- Hreq, <- Hr.
  destruct (console_only_after_answer p
              (serve (remote t1) (request_for t1 method url ip1 data jd1)).1)
    as (r & out & E).
  rewrite !E. cbn. unfold same_effect. cbn.
  repeat split; try assumption.
  - exists (o ++ out). rewrite Ho1, Ho2. now rewrite <- !app_assoc.
  - exists (request_for t1 method url ip1 data jd1). now rewrite Hs1, Hs2.
  - now exists ds.
Qed.
End MakeRequestFacts.


(** ** Outcomes of [make_request] *)

Section Outcomes.
Context {Remote : Type}.
Variable serve : Remote -> request -> (exn + response) * Remote.

Lemma http_error_msg_error (r : response) :
  (400 <= status_code r < 600)%Z ->
  String.eqb (http_error_msg r) "" = false.
Proof.
  intros H. unfold http_error_msg.
  destruct (Z.leb_spec 400 (status_code r)); [|lia].
  destruct (Z.ltb_spec (status_code r) 500); cbn [andb].
  - destruct (pretty (status_code r)); reflexivity.
  - destruct (Z.leb_spec 500 (status_code r)); [|lia].
    destruct (Z.ltb_spec (status_code r) 600); [|lia].
    destruct (pretty (status_code r)); reflexivity.
Qed.

Lemma http_error_msg_none (r : response) :
  (status_code r < 400 \/ 600 <= status_code r)%Z ->
  http_error_msg r = "".
Proof.
  intros H. unfold http_error_msg.
  destruct (Z.leb_spec 400 (status_code r)),
           (Z.ltb_spec (status_code r) 500),
           (Z.leb_spec 500 (status_code r)),
           (Z.ltb_spec (status_code r) 600); cbn [andb]; try reflexivity; lia.
Qed.

(** A status from 400 to 599 leads into the [except HTTPError] clause,
    with [response] bound. *)
Lemma after_answer_rejected (p : bool) (resp : response) (s : state Remote) :
  (400 <= status_code resp < 600)%Z ->
  after_answer p (inr resp) s =
  except_clauses (Some resp) (Exn HTTPError (http_error_msg resp)) s.
Proof.
  intros H. unfold after_answer, try_except_else, raise_for_status.
  now rewrite (http_error_msg_error _ H).
Qed.

(** A status that [raise_for_status] accepts leads into the [else] part. *)
Lemma after_answer_accepted (p : bool) (resp : response) (s : state Remote) :
  (status_code resp < 400 \/ 600 <= status_code resp)%Z ->
  after_answer p (inr resp) s =
  (print (Text "Success!") ;;;
   if p then body <- response_json resp ;; getitem body "payload"
   else response_json resp) s.
Proof.
  intros H. unfold after_answer, try_except_else, raise_for_status.
  now rewrite (http_error_msg_none _ H).
Qed.

(** The [except HTTPError] clause prints the HTTP error before anything
    else. *)
Lemma except_clauses_http_first (resp : response) (e : exn)
    (s : state Remote) :
  is_HTTPError e = true ->
  exists rest,
    stdout (except_clauses (Some resp) e s).2 =
    stdout s ++ Text ("HTTP error occurred: " +:+ exn_str e) :: rest.
Proof.
  intros H.
  set (m := (body <- response_json resp ;;
             err <- getitem body "error" ;;
             print (Str err) ;;; ret VNone) : M Remote value).
  set (s1 := State (dicts s) (lists s)
               (stdout s ++ [Text ("HTTP error occurred: " +:+ exn_str e)])
               (sent s) (remote s)).
  assert (E : except_clauses (Some resp) e s = m s1).
  { unfold except_clauses. now rewrite H. }
  assert (P : console_only m).
  { apply console_only_bind; [apply console_only_response_json|].
    intros body. apply console_only_bind; [apply console_only_getitem|].
    intros err. apply console_only_bind;
      [apply console_only_print | intros _; apply console_only_ret]. }
  destruct P as (r & rest & Hrest). exists rest.
  rewrite E, Hrest. cbn. now rewrite <- app_assoc.
Qed.

(** A response that [raise_for_status] accepts and whose body decodes:
    [make_request] prints its success line and returns the body, or the
    body's ["payload"] entry. *)
Lemma make_request_accepted (method url : string) (ip : option loc)
    (data : string) (jd : option loc) (s : state Remote)
    (resp : response) (body : value) :
  let req := request_for s method url ip data jd in
  (serve (remote s) req).1 = inr resp ->
  (status_code resp < 400 \/ 600 <= status_code resp)%Z ->
  json_body resp = inr body ->
  (make_request serve method url ip data jd false s).1 = Return body
  /\ forall fields payload,
       body = VDict fields -> assoc "payload" fields = Some payload ->
       (make_request serve method url ip data jd true s).1 = Return payload.
Proof.
  intros req Hans Hst Hbody. subst req. rewrite !make_request_eq.
  cbv zeta. rewrite Hans. unfold after_answer, try_except_else, raise_for_status.
  rewrite (http_error_msg_none _ Hst). cbn. unfold response_json.
  rewrite Hbody. cbn. split; [reflexivity|].
  intros fields payload -> Hp. cbn. now rewrite Hp.
Qed.

(** C3: when the request succeeds (a 2xx status) and the body decodes to
    an envelope, an object with a ["payload"] entry, [make_request]
    returns that entry if [only_payload] is set and the whole envelope
    otherwise. *)
Theorem make_request_only_payload (method url : string) (ip : option loc)
    (data : string) (jd : option loc) (s : state Remote)
    (resp : response) (fields : list (string * value)) (payload : value) :
  (serve (remote s) (request_for s method url ip data jd)).1 = inr resp ->
  (200 <= status_code resp < 300)%Z ->
  json_body resp = inr (VDict fields) ->
  assoc "payload" fields = Some payload ->
  (make_request serve method url ip data jd true s).1 = Return payload
  /\ (make_request serve method url ip data jd false s).1
     = Return (VDict fields).
Proof.
  intros Hans Hst Hbody Hp.
  destruct (make_request_accepted method url ip data jd s resp
              (VDict fields) Hans) as [Hfull Hpay]; [lia|exact Hbody|].
  split; [now apply (Hpay fields)|exact Hfull].
Qed.

(** The failures that the [except] clauses deal with end in [None]. *)
Lemma make_request_handled (method url : string) (ip : option loc)
    (data : string) (jd : option loc) (p : bool) (s : state Remote)
    (out : list line) :
  caught_failure (serve (remote s) (request_for s method url ip data jd)).1
                 out ->
  make_request serve method url ip data jd p s =
  (Return VNone,
   State (dicts s) (lists s) (stdout s ++ out)
         (sent s ++ [request_for s method url ip data jd])
         (serve (remote s) (request_for s method url ip data jd)).2).
Proof.
  intros H. rewrite make_request_eq. cbv zeta.
  destruct H as [e Hex Hhttp | resp fields err Hst Hbody Herr].
  - cbn. unfold except_clauses. now rewrite Hhttp, Hex.
  - rewrite (after_answer_rejected _ _ _ Hst).
    unfold except_clauses, bind, response_json. cbn. rewrite Hbody. cbn.
    rewrite Herr. cbn. now rewrite <- app_assoc.
Qed.


End Outcomes.


(** ** The request executor on the mock servers *)

(** The envelope of the specification's example, answered with status 200. *)
Lemma make_request_only_payload_witness :
  (make_request (mock (inr ok_envelope)) "GET" "http://host/api/sas/"
     None "" None true (module_loaded tt)).1
  = Return (VDict [("x", VInt 1)])
  /\ (make_request (mock (inr ok_envelope)) "GET" "http://host/api/sas/"
        None "" None false (module_loaded tt)).1
     = Return envelope_x1.
Proof.
  apply (make_request_only_payload (mock (inr ok_envelope)) "GET"
           "http://host/api/sas/" None "" None (module_loaded tt) ok_envelope
           [("status", VInt 200); ("error", VNone);
            ("payload", VDict [("x", VInt 1)])]
           (VDict [("x", VInt 1)])).
  - reflexivity.
  - cbn. lia.
  - reflexivity.
  - reflexivity.
Defined.






(** ** The endpoint functions *)

Section StoreFacts.
Context {A : Type}.

(** Storing into, and reading from, the object allocated last. *)
Lemma alter_last (f : A -> A) (l : list A) (x : A) :
  alter f (length l) (l ++ [x]) = l ++ [f x].
Proof. induction l as [|y l IH]; cbn; [reflexivity | now f_equal]. Qed.

Lemma lookup_last (l : list A) (x : A) : (l ++ [x]) !! length l = Some x.
Proof. induction l as [|y l IH]; cbn; [reflexivity | exact IH]. Qed.
End StoreFacts.

(** Runs the statements of an endpoint function up to its call of
    [make_request]. *)
Ltac run_prefix :=
  cbv beta iota zeta delta [bind new_dict setitem print ret];
  cbn [dicts lists stdout sent remote];
  rewrite ?alter_last.

Ltac same_request :=
  unfold request_for, dict_at, list_at in *;
  cbn [default from_option id dicts lists] in *;
  rewrite ?lookup_last; cbn [default from_option id];
  congruence.

Ltac same_call :=
  run_prefix;
  eapply make_request_same_effect; cbn [dicts lists stdout sent remote];
  [ first [symmetry; apply app_nil_r | rewrite <- ?app_assoc; reflexivity]
  | first [symmetry; apply app_nil_r | rewrite <- ?app_assoc; reflexivity]
  | reflexivity | reflexivity
  | first [symmetry; apply app_nil_r | reflexivity]
  | first [symmetry; apply app_nil_r | reflexivity]
  | reflexivity | reflexivity
  | tauto
  | same_request ].

Section EndpointFacts.
Context {Remote : Type}.
Variable serve : Remote -> request -> (exn + response) * Remote.

Lemma call_scoped_same_effect (op : scoped_op) (url : string)
    (server_name : option string) (repository_name : string)
    (server_url : option string) (server_port : option value)
    (p : bool) (s1 s2 : state Remote) :
  agree s1 s2 ->
  same_effect s1 s2
    (call_scoped serve op url server_name repository_name server_url
       server_port p s1)
    (call_scoped serve op url server_name repository_name server_url
       server_port p s2).
Proof.
  intros (Hd & Hl & Hr).
  destruct op; cbn [call_scoped];
    unfold execute_command, get_library_list, get_library_info,
      get_dataset_list, get_dataset_info, retrieve_data, insert_data,
      replace_all_data, delete_dataset;
    repeat match goal with
           | |- context [match ?o with Some _ => _ | None => _ end] =>
               is_var o; destruct o
           | |- context [if ?b then _ else _] => is_var b; destruct b
           end;
    same_call.
Qed.

(** Every endpoint function has the same effect in any two states that
    agree. *)
Lemma run_call_same_effect (c : call) (s1 s2 : state Remote) :
  agree s1 s2 ->
  same_effect s1 s2 (run_call serve c s1) (run_call serve c s2).
Proof.
  intros H. destruct c; cbn [run_call];
    try (apply call_scoped_same_effect; exact H);
    destruct H as (Hd & Hl & Hr);
    unfold get_metadata_server_config, get_license_info,
      get_workspace_server_list, get_workspace_server_config,
      get_stp_server_list, get_stp_server_config, get_user_list,
      get_configured_user_info, get_user_info, get_group_list,
      get_group_info, get_role_list, get_role_info, create_library,
      delete_library, find_object, move_object, delete_object;
    repeat match goal with
           | |- context [if ?b then _ else _] => is_var b; destruct b
           end;
    same_call.
Qed.
End EndpointFacts.


(** ** The request that an endpoint function sends *)

(** Runs an endpoint function up to the end of its call of
    [make_request], which calls the library once. *)
Ltac sent_request :=
  run_prefix;
  match goal with
  | |- context [make_request ?srv ?m ?u ?ip ?d ?jd ?p ?t] =>
      let r := fresh "r" in
      let out := fresh "out" in
      let E := fresh "E" in
      destruct (make_request_state srv m u ip d jd p t) as (r & out & E);
      rewrite E; clear E
  end;
  unfold request_for, dict_at, list_at;
  cbn [fst snd dicts lists stdout sent remote default from_option id];
  rewrite ?lookup_last;
  cbn [default from_option id req_url req_method req_params].

Section Requests.
Context {Remote : Type}.
Variable serve : Remote -> request -> (exn + response) * Remote.

(** C2: in each of the nine target-scoped functions a [server_name] that
    is not [None] wins over [server_url] and [server_port], whatever
    these are: the request goes to [sas/servers/<server_name>/...], it
    carries [repositoryName], and it carries neither [serverUrl] nor
    [serverPort]. *)
Theorem server_name_wins (op : scoped_op) (url server_name : string)
    (repository_name : string) (server_url : option string)
    (server_port : option value) (only_payload : bool)
    (s : state Remote) :
  exists req,
    sent (call_scoped serve op url (Some server_name) repository_name
            server_url server_port only_payload s).2 = sent s ++ [req]
    /\ req_url req
       = assemble_url url
           ("sas/servers/" +:+ server_name +:+ "/" +:+ resource op)
    /\ req_params req !! "repositoryName" = Some (VStr repository_name)
    /\ req_params req !! "serverUrl" = None
    /\ req_params req !! "serverPort" = None.
Proof.
  destruct op; cbn [call_scoped];
    unfold execute_command, get_library_list, get_library_info,
      get_dataset_list, get_dataset_info, retrieve_data, insert_data,
      replace_all_data, delete_dataset;
    repeat match goal with
           | |- context [match ?o with Some _ => _ | None => _ end] =>
               is_var o; destruct o
           | |- context [if ?b then _ else _] => is_var b; destruct b
           end;
    sent_request;
    (eexists; split; [reflexivity|]);
    cbn [req_url req_params]; repeat split; reflexivity.
Qed.

(** C9: with [server_name] left out and only one of [server_url] and
    [server_port] given, each of the nine functions does exactly what it
    does when neither is given: the lone value is dropped, the notice is
    printed, and the request goes to the unscoped path without
    [serverUrl], [serverPort] or [repositoryName].  Nothing is raised on
    the way to [make_request]. *)
Theorem lone_url_or_port_ignored (op : scoped_op) (url : string)
    (repository_name server_url : string) (server_port : value)
    (only_payload : bool) (s : state Remote) :
  let by_default :=
    call_scoped serve op url None repository_name None None only_payload s
  in
  call_scoped serve op url None repository_name (Some server_url) None
    only_payload s = by_default
  /\ call_scoped serve op url None repository_name None (Some server_port)
       only_payload s = by_default
  /\ exists req out,
       sent by_default.2 = sent s ++ [req]
       /\ req_url req = assemble_url url ("sas/" +:+ resource op)
       /\ req_params req !! "serverUrl" = None
       /\ req_params req !! "serverPort" = None
       /\ req_params req !! "repositoryName" = None
       /\ stdout by_default.2 = stdout s ++ default_server_notice :: out.
Proof.
  intros by_default. subst by_default.
  split; [now destruct op|]. split; [now destruct op|].
  destruct op; cbn [call_scoped];
    unfold execute_command, get_library_list, get_library_info,
      get_dataset_list, get_dataset_info, retrieve_data, insert_data,
      replace_all_data, delete_dataset;
    repeat match goal with
           | |- context [match ?o with Some _ => _ | None => _ end] =>
               is_var o; destruct o
           | |- context [if ?b then _ else _] => is_var b; destruct b
           end;
    sent_request;
    (eexists; eexists; split; [reflexivity|]);
    cbn [req_url req_params]; repeat split; try reflexivity;
    now rewrite <- app_assoc.
Qed.

(** C6: [move_object] sends [source_location] and [source_name] under
    their own names, [public_type] under ["destinationLocation"] and
    [destination_location] under ["publicType"]. *)
Theorem move_object_swaps
    (url source_location source_name public_type destination_location
     repository_name : string) (only_payload : bool) (s : state Remote) :
  exists req,
    sent (move_object serve url source_location source_name public_type
            destination_location repository_name only_payload s).2
    = sent s ++ [req]
    /\ req_method req = "POST"
    /\ req_url req = assemble_url url "sas/meta/objects/move"
    /\ req_params req !! "sourceLocation" = Some (VStr source_location)
    /\ req_params req !! "sourceName" = Some (VStr source_name)
    /\ req_params req !! "destinationLocation" = Some (VStr public_type)
    /\ req_params req !! "publicType" = Some (VStr destination_location)
    /\ req_params req !! "repositoryName" = Some (VStr repository_name).
Proof.
  unfold move_object. sent_request.
  eexists; split; [reflexivity|].
  cbn [req_url req_method req_params]. repeat split; reflexivity.
Qed.

(** What [encode_params] keeps and what it drops. *)
Lemma encode_params_lookup (params : gmap string value) (k : string) :
  encode_params params !! k =
  match params !! k with
  | Some VNone | None => None
  | Some v => Some v
  end.
Proof.
  unfold encode_params. rewrite map_lookup_filter.
  destruct (params !! k) as [[]|]; reflexivity.
Qed.

Lemma encode_params_of_optional (params : gmap string value) (k : string)
    (o : option string) :
  params !! k = Some (of_optional o) ->
  encode_params params !! k = VStr <$> o.
Proof.
  intros H. rewrite encode_params_lookup, H. now destruct o.
Qed.

(** C8: of the optional criteria of [find_object], those left at [None]
    do not appear in the query that goes on the wire, and those given
    appear with their value; no entry of the query is [None]. *)
Theorem find_object_omits_none (url repository_name : string)
    (location : option string) (location_recursive : bool)
    (object_id object_type public_type name_equals name_starts
     name_contains name_regex description_contains description_regex
     created_gt created_lt modified_gt modified_lt table_libref
     table_dbms : option string)
    (include_associations include_permissions only_payload : bool)
    (s : state Remote) :
  exists req,
    sent (find_object serve url repository_name location
            location_recursive object_id object_type public_type
            name_equals name_starts name_contains name_regex
            description_contains description_regex created_gt created_lt
            modified_gt modified_lt table_libref table_dbms
            include_associations include_permissions only_payload s).2
    = sent s ++ [req]
    /\ (forall k, wire_query req !! k <> Some VNone)
    /\ Forall (fun ka => wire_query req !! ka.1 = VStr <$> ka.2)
         [("location", location); ("objectID", object_id);
          ("objectType", object_type); ("publicType", public_type);
          ("nameEquals", name_equals); ("nameStarts", name_starts);
          ("nameContains", name_contains); ("nameRegex", name_regex);
          ("descriptionContains", description_contains);
          ("descriptionRegex", description_regex);
          ("createdGt", created_gt); ("createdLt", created_lt);
          ("modifiedGt", modified_gt); ("modifiedLt", modified_lt);
          ("tableLibref", table_libref); ("tableDBMS", table_dbms)]
    /\ wire_query req !! "repositoryName" = Some (VStr repository_name).
Proof.
  unfold find_object. sent_request.
  eexists; split; [reflexivity|]. unfold wire_query. cbn [req_params].
  split; [|split].
  - intros k. rewrite encode_params_lookup.
    now destruct (_ !! k) as [[]|].
  - repeat constructor; cbn [fst snd];
      apply encode_params_of_optional; reflexivity.
  - now rewrite encode_params_lookup.
Qed.
End Requests.


(** ** No state of the client outlives a call *)

Section Frame.
Context {Remote : Type}.
Variable serve : Remote -> request -> (exn + response) * Remote.

Lemma agree_refl (s : state Remote) : agree s s.
Proof. now repeat split. Qed.

(** A call allocates dictionaries and leaves every other object alone. *)
Lemma run_client_call_frame (c : client_call) (s : state Remote) :
  exists ds,
    dicts (run_client_call serve c s).2 = dicts s ++ ds
    /\ lists (run_client_call serve c s).2 = lists s.
Proof.
  destruct c as [c | method url ip data jd p]; cbn [run_client_call].
  - destruct (run_call_same_effect serve c s s (agree_refl s))
      as (_ & _ & _ & (ds & Hd & _) & Hl & _).
    now exists ds.
  - destruct (make_request_state serve method url ip data jd p s)
      as (r & out & E).
    exists []. rewrite E. cbn. now rewrite app_nil_r.
Qed.

Lemma run_client_frame (cs : list client_call) (s : state Remote) :
  exists ds,
    dicts (run_client serve cs s) = dicts s ++ ds
    /\ lists (run_client serve cs s) = lists s.
Proof.
  revert s. induction cs as [|c cs IH]; intros s; cbn [run_client].
  - exists []. now rewrite app_nil_r.
  - destruct (run_client_call_frame c s) as (ds1 & Hd1 & Hl1).
    destruct (IH (run_client_call serve c s).2) as (ds2 & Hd2 & Hl2).
    exists (ds1 ++ ds2). rewrite Hd2, Hl2, Hd1, Hl1.
    now rewrite <- app_assoc.
Qed.

(** The default objects are still empty after any calls. *)
Lemma run_client_loaded (cs : list client_call) (s : state Remote) :
  loaded s -> loaded (run_client serve cs s).
Proof.
  intros [Hd Hl]. destruct (run_client_frame cs s) as (ds & Ed & El).
  split; [|now rewrite El].
  rewrite Ed. now apply lookup_app_l_Some.
Qed.

Lemma loaded_agree (s1 s2 : state Remote) :
  loaded s1 -> loaded s2 -> lists s1 = lists s2 -> remote s1 = remote s2 ->
  agree s1 s2.
Proof.
  intros [Hd1 _] [Hd2 _] Hl Hr. unfold agree, dict_at.
  now rewrite Hd1, Hd2.
Qed.

(** C7: an endpoint function keeps no state of its own between calls.
    Whatever calls a client made before, [history1] in one run and
    [history2] in the other, a call with the same arguments against a
    remote side in the same state returns or raises the same, prints the
    same and sends the same request in both runs. *)
Theorem endpoint_calls_stateless (c : call)
    (history1 history2 : list client_call) (s : state Remote) :
  loaded s ->
  remote (run_client serve history1 s)
  = remote (run_client serve history2 s) ->
  same_effect (run_client serve history1 s) (run_client serve history2 s)
    (run_call serve c (run_client serve history1 s))
    (run_call serve c (run_client serve history2 s)).
Proof.
  intros Hs Hr. apply run_call_same_effect.
  apply loaded_agree; try (now apply run_client_loaded); [|exact Hr].
  destruct (run_client_frame history1 s) as (ds1 & _ & El1).
  destruct (run_client_frame history2 s) as (ds2 & _ & El2).
  now rewrite El1, El2.
Qed.

(** C10: [make_request] writes to no dictionary and no list, so neither
    to its arguments nor to its two default objects; a client's calls,
    of the endpoint functions or of [make_request] itself, leave every
    object that existed before as it was; and after any such calls the
    default dictionary and the default list are as empty as when the
    module was loaded. *)
Theorem defaults_never_mutated :
  (forall method url ip data jd p (s : state Remote),
      dicts (make_request serve method url ip data jd p s).2 = dicts s
      /\ lists (make_request serve method url ip data jd p s).2 = lists s)
  /\ (forall cs (s : state Remote),
         take (length (dicts s)) (dicts (run_client serve cs s)) = dicts s
         /\ lists (run_client serve cs s) = lists s)
  /\ (forall cs (r : Remote) data,
         dict_at (run_client serve cs (client_start r data))
                 default_initial_params = ∅
         /\ list_at (run_client serve cs (client_start r data))
                    default_json_data = []).
Proof.
  split; [|split].
  - intros method url ip data jd p s.
    destruct (make_request_state serve method url ip data jd p s)
      as (r & out & E).
    now rewrite E.
  - intros cs s. destruct (run_client_frame cs s) as (ds & Ed & El).
    split; [|exact El]. rewrite Ed. apply take_app_length.
  - intros cs r data.
    destruct (run_client_loaded cs (client_start r data)) as [Hd Hl];
      [now split|].
    unfold dict_at, list_at. now rewrite Hd, Hl.
Qed.
End Frame.

(** ** Examples on the mock servers *)

(** [get_library_list] called twice in a row against a remote side that
    does not change. *)
Lemma endpoint_calls_stateless_witness :
  let c := Scoped GetLibraryList "http://host/api" (Some "SASApp")
             "Foundation" None None true in
  let serve := mock (inr ok_envelope) in
  same_effect (run_client serve [] (module_loaded tt))
    (run_client serve [Endpoint c] (module_loaded tt))
    (run_call serve c (run_client serve [] (module_loaded tt)))
    (run_call serve c (run_client serve [Endpoint c] (module_loaded tt))).
Proof.
  intros c serve.
  apply (endpoint_calls_stateless serve c [] [Endpoint c] (module_loaded tt)).
  - split; reflexivity.
  - reflexivity.
Defined.

(** The example of the specification for [move_object]. *)
Example move_object_example :
  req_params
    <$> sent (move_object (mock (inr ok_envelope)) "http://host/api" "/a" "x"
                "Table" "/b" "Foundation" false (module_loaded tt)).2
  = [display [("sourceLocation", VStr "/a"); ("sourceName", VStr "x");
              ("destinationLocation", VStr "Table"); ("publicType", VStr "/b");
              ("repositoryName", VStr "Foundation")]].
Proof. reflexivity. Qed.

(** The example of the specification for the target selector. *)
Example execute_command_example :
  req_url
    <$> sent (execute_command (mock (inr ok_envelope)) "http://host/api"
                "proc print data=sashelp.class;run;" (Some "SASApp")
                "Foundation" (Some "sas.example.org") (Some (VInt 8591))
                true false (module_loaded tt)).2
  = ["http://host/api/sas/servers/SASApp/cmd"].
Proof. reflexivity. Qed.

(** * Further properties of the code *)

(** ** More on [assemble_url] *)

Module JoinFacts.

Lemma startswith_append (a b : string) : startswith (a +:+ b) a = true.
Proof.
  unfold startswith. induction a as [|c a IH]; [now destruct b|].
  rewrite PyStrFacts.append_cons. cbn [String.prefix].
  now destruct (ascii_dec c c).
Qed.

Lemma endswith_append (a b : string) : endswith (a +:+ b) b = true.
Proof.
  induction a as [|c a IH].
  - change ("" +:+ b) with b. destruct b; cbn [endswith];
      now rewrite String.eqb_refl.
  - rewrite PyStrFacts.append_cons. cbn [endswith]. rewrite IH.
    apply orb_true_r.
Qed.

Lemma length_append (a b : string) :
  String.length (a +:+ b) = String.length a + String.length b.
Proof.
  induction a as [|c a IH]; [reflexivity|].
  rewrite PyStrFacts.append_cons. cbn [String.length]. now rewrite IH.
Qed.

(** [rstrip] leaves alone a string whose last character is not
    whitespace. *)
Lemma rstrip_last (u : string) (c : ascii) :
  isspace c = false -> rstrip (u +:+ String c "") = u +:+ String c "".
Proof.
  intros Hc. induction u as [|a u IH].
  - change ("" +:+ String c "") with (String c ""). cbn. now rewrite Hc.
  - rewrite PyStrFacts.append_cons. cbn [rstrip]. rewrite IH.
    destruct u; reflexivity.
Qed.

(** Whitespace at the end does not count for [rstrip]. *)
Lemma rstrip_append_space (u ws : string) :
  all_space ws = true -> rstrip (u +:+ ws) = rstrip u.
Proof.
  intros Hws. induction u as [|a u IH].
  - change ("" +:+ ws) with ws. induction ws as [|c ws IHws]; [reflexivity|].
    cbn [all_space] in Hws. apply andb_prop in Hws as [Hc Hrest].
    cbn [rstrip]. now rewrite (IHws Hrest), Hc.
  - rewrite PyStrFacts.append_cons. cbn [rstrip]. now rewrite IH.
Qed.

Lemma strip_ends_with_slash (u : string) :
  endswith (strip (u +:+ "/")) "/" = true.
Proof.
  unfold strip. rewrite rstrip_last by reflexivity.
  rewrite PyStrFacts.endswith_lstrip. apply endswith_append.
Qed.

End JoinFacts.

(** X1: [assemble_url] removes and changes nothing: the result begins with
    the base, ends with the endpoint, and is longer than the two together
    by at most the one separator. *)
Theorem assemble_url_keeps_parts (url endpoint : string) :
  startswith (assemble_url url endpoint) url = true
  /\ endswith (assemble_url url endpoint) endpoint = true
  /\ String.length url + String.length endpoint
     <= String.length (assemble_url url endpoint)
     <= String.length url + String.length endpoint + 1.
Proof.
  unfold assemble_url. destruct (endswith (strip url) "/").
  - rewrite JoinFacts.startswith_append, JoinFacts.endswith_append,
      JoinFacts.length_append. repeat split; lia.
  - rewrite JoinFacts.startswith_append, <- PyStrFacts.append_assoc,
      JoinFacts.endswith_append, !JoinFacts.length_append.
    cbn [String.length]. repeat split; lia.
Qed.

(** X2: a base whose stripped form does not end with the separator gives
    the same URL with and without one separator appended. *)
Theorem assemble_url_trailing_separator (url endpoint : string) :
  endswith (strip url) "/" = false ->
  assemble_url (url +:+ "/") endpoint = assemble_url url endpoint.
Proof.
  intros H. unfold assemble_url.
  rewrite JoinFacts.strip_ends_with_slash, H.
  apply PyStrFacts.append_assoc.
Qed.

(** The base ["http://host/api"]. *)
Lemma assemble_url_trailing_separator_witness :
  assemble_url ("http://host/api" +:+ "/") "sas/"
  = assemble_url "http://host/api" "sas/".
Proof.
  apply (assemble_url_trailing_separator "http://host/api" "sas/").
  reflexivity.
Defined.

(** X3: whitespace after the final separator of the base stays where it
    is: the test is made on the stripped base, the join uses the base as
    given, so the endpoint follows the whitespace without a separator. *)
Theorem assemble_url_keeps_whitespace (u ws endpoint : string) :
  all_space ws = true ->
  assemble_url (u +:+ "/" +:+ ws) endpoint = u +:+ "/" +:+ ws +:+ endpoint.
Proof.
  intros Hws. unfold assemble_url, strip.
  rewrite <- (PyStrFacts.append_assoc u "/" ws).
  rewrite (JoinFacts.rstrip_append_space _ _ Hws).
  rewrite JoinFacts.rstrip_last by reflexivity.
  rewrite PyStrFacts.endswith_lstrip, JoinFacts.endswith_append.
  now rewrite !PyStrFacts.append_assoc.
Qed.

(** The base ["http://host/api/ "], with one space at its end. *)
Lemma assemble_url_keeps_whitespace_witness :
  assemble_url ("http://host/api" +:+ "/" +:+ " ") "sas/"
  = "http://host/api" +:+ "/" +:+ " " +:+ "sas/".
Proof.
  apply (assemble_url_keeps_whitespace "http://host/api" " " "sas/").
  reflexivity.
Defined.

(** ** More on [make_request] *)

Section MoreOutcomes.
Context {Remote : Type}.
Variable serve : Remote -> request -> (exn + response) * Remote.

Lemma not_Exception_not_HTTPError (e : exn) :
  is_Exception e = false -> is_HTTPError e = false.
Proof. destruct e as [[] msg]; cbn; congruence. Qed.

(** X4: the success line is printed before the body is looked at.  When
    the status is accepted and the body does not decode, [make_request]
    has already printed ["Success!"] and then raises the decoder's error,
    whatever [only_payload] is. *)
Theorem make_request_undecodable_body (method url : string)
    (ip : option loc) (data : string) (jd : option loc) (p : bool)
    (s : state Remote) (resp : response) (msg : string) :
  (serve (remote s) (request_for s method url ip data jd)).1 = inr resp ->
  (status_code resp < 400 \/ 600 <= status_code resp)%Z ->
  json_body resp = inl msg ->
  make_request serve method url ip data jd p s =
  (Raise (Exn JSONDecodeError msg),
   State (dicts s) (lists s) (stdout s ++ [Text "Success!"])
         (sent s ++ [request_for s method url ip data jd])
         (serve (remote s) (request_for s method url ip data jd)).2).
Proof.
  intros Hans Hst Hbody. rewrite make_request_eq. cbv zeta. rewrite Hans.
  rewrite (after_answer_accepted _ _ _ Hst).
  unfold bind, print, response_json. rewrite Hbody.
  now destruct p.
Qed.

(** X5: [only_payload] can turn a successful call into an exception.
    When the status is accepted and the decoded body has no ["payload"]
    entry, the call returns the body with [only_payload=False] and raises
    with [only_payload=True]: [KeyError] for an object without the key,
    [TypeError] for a body that is not an object. *)
Theorem make_request_payload_missing (method url : string)
    (ip : option loc) (data : string) (jd : option loc)
    (s : state Remote) (resp : response) (body : value) :
  (serve (remote s) (request_for s method url ip data jd)).1 = inr resp ->
  (status_code resp < 400 \/ 600 <= status_code resp)%Z ->
  json_body resp = inr body ->
  match body with
  | VDict fields => assoc "payload" fields = None
  | _ => True
  end ->
  (make_request serve method url ip data jd false s).1 = Return body
  /\ exists e,
       (make_request serve method url ip data jd true s).1 = Raise e
       /\ exn_cls e = match body with
                      | VDict _ => KeyError
                      | _ => TypeError
                      end
       /\ (forall fields, body = VDict fields -> exn_str e = "payload").
Proof.
  intros Hans Hst Hbody Hno. rewrite !make_request_eq. cbv zeta.
  rewrite Hans, !(after_answer_accepted _ _ _ Hst).
  unfold bind, print, response_json. rewrite Hbody. cbn.
  split; [reflexivity|].
  destruct body; cbn; try (eexists; repeat split; discriminate).
  rewrite Hno. eexists. repeat split.
Qed.

(** X6: an HTTP failure whose body cannot give an ["error"] entry is not
    caught.  For a status from 400 to 599 whose body is not a JSON object
    with that entry, [make_request] prints the HTTP error and then raises
    from inside the [except] clause: the decoder's error, a [KeyError] or
    a [TypeError]. *)
Theorem make_request_error_body_unusable (method url : string)
    (ip : option loc) (data : string) (jd : option loc) (p : bool)
    (s : state Remote) (resp : response) :
  (serve (remote s) (request_for s method url ip data jd)).1 = inr resp ->
  (400 <= status_code resp < 600)%Z ->
  (forall fields err,
      json_body resp = inr (VDict fields) ->
      assoc "error" fields = Some err -> False) ->
  exists e,
    make_request serve method url ip data jd p s =
    (Raise e,
     State (dicts s) (lists s)
           (stdout s ++ [Text ("HTTP error occurred: "
                               +:+ http_error_msg resp)])
           (sent s ++ [request_for s method url ip data jd])
           (serve (remote s) (request_for s method url ip data jd)).2)
    /\ (exn_cls e = JSONDecodeError \/ exn_cls e = KeyError
        \/ exn_cls e = TypeError).
Proof.
  intros Hans Hst Hno. rewrite make_request_eq. cbv zeta. rewrite Hans.
  rewrite (after_answer_rejected _ _ _ Hst).
  unfold except_clauses, bind, print, response_json. cbn.
  destruct (json_body resp) as [msg|body] eqn:Hbody; cbn.
  { eexists. split; [reflexivity|]. now left. }
  destruct body; cbn;
    try (eexists; split; [reflexivity|]; right; right; reflexivity).
  destruct (assoc "error" items) as [err|] eqn:Herr; cbn.
  - exfalso. exact (Hno items err eq_refl Herr).
  - eexists. split; [reflexivity|]. right. now left.
Qed.

(** X7: what is not an [Exception] is not swallowed.  When the library
    raises an exception outside the [Exception] hierarchy, such as
    [KeyboardInterrupt], [make_request] prints nothing and lets it
    through. *)
Theorem make_request_lets_through (method url : string)
    (ip : option loc) (data : string) (jd : option loc) (p : bool)
    (s : state Remote) (e : exn) :
  (serve (remote s) (request_for s method url ip data jd)).1 = inl e ->
  is_Exception e = false ->
  make_request serve method url ip data jd p s =
  (Raise e,
   State (dicts s) (lists s) (stdout s)
         (sent s ++ [request_for s method url ip data jd])
         (serve (remote s) (request_for s method url ip data jd)).2).
Proof.
  intros Hans Hex. rewrite make_request_eq. cbv zeta. rewrite Hans.
  cbn. unfold except_clauses.
  now rewrite (not_Exception_not_HTTPError _ Hex), Hex.
Qed.

(** X8: [only_payload] changes the returned value and nothing else.  The
    two calls leave the same state behind (the same request sent, the same
    lines printed, the same store), and every exception of the call that
    asks for the whole envelope is raised by the other call as well. *)
Theorem only_payload_changes_result_only (method url : string)
    (ip : option loc) (data : string) (jd : option loc) (s : state Remote) :
  (make_request serve method url ip data jd true s).2
  = (make_request serve method url ip data jd false s).2
  /\ forall e,
       (make_request serve method url ip data jd false s).1 = Raise e ->
       (make_request serve method url ip data jd true s).1 = Raise e.
Proof.
  rewrite !make_request_eq. cbv zeta.
  destruct (serve (remote s) (request_for s method url ip data jd))
    as [[e0|resp] r]; cbn [fst snd]; [now split|].
  unfold after_answer, try_except_else, raise_for_status.
  destruct (String.eqb (http_error_msg resp) ""); cbn; [|now split].
  unfold bind, response_json.
  destruct (json_body resp) as [msg|body]; cbn; [now split|].
  split; [|discriminate].
  destruct body; cbn; try reflexivity. now destruct (assoc "payload" items).
Qed.

(** Closes a leaf of the case analysis on what [make_request] prints: the
    output is read off, and its first line compared with the one asked
    for. *)
Ltac first_line yes no :=
  rewrite <- ?app_assoc;
  eexists;
  (split; [first [reflexivity | symmetry; apply app_nil_r]|]);
  cbn [head];
  (split;
   [ split;
     [ intros H; first [discriminate H | exact yes]
     | intros H; first [reflexivity | now elim no] ]
   | intros l H; first [discriminate H | injection H as <-; now eexists] ]).

End MoreOutcomes.

(** A 200 answer whose body is not JSON. *)
Lemma make_request_undecodable_body_witness :
  make_request (mock (inr ok_not_json)) "GET" "http://host/api/sas/" None ""
    None true (module_loaded tt)
  = (Raise (Exn JSONDecodeError "Expecting value: line 1 column 1 (char 0)"),
     State [∅] [[]] [Text "Success!"]
           [Request "GET" "http://host/api/sas/" ∅ "" []] tt).
Proof.
  apply (make_request_undecodable_body (mock (inr ok_not_json)) "GET"
           "http://host/api/sas/" None "" None true (module_loaded tt)
           ok_not_json "Expecting value: line 1 column 1 (char 0)").
  - reflexivity.
  - cbn. lia.
  - reflexivity.
Defined.

(** A 200 answer whose body is the list [[1]]. *)
Lemma make_request_payload_missing_witness :
  let serve := mock (inr (Response 200 "OK" "http://host/api/sas/"
                            (inr (VList [VInt 1])))) in
  (make_request serve "GET" "http://host/api/sas/" None "" None false
     (module_loaded tt)).1 = Return (VList [VInt 1])
  /\ exists e,
       (make_request serve "GET" "http://host/api/sas/" None "" None true
          (module_loaded tt)).1 = Raise e
       /\ exn_cls e = TypeError
       /\ (forall fields, VList [VInt 1] = VDict fields ->
                          exn_str e = "payload").
Proof.
  intros serve.
  apply (make_request_payload_missing serve "GET" "http://host/api/sas/"
           None "" None (module_loaded tt)
           (Response 200 "OK" "http://host/api/sas/" (inr (VList [VInt 1])))
           (VList [VInt 1])).
  - reflexivity.
  - cbn. lia.
  - reflexivity.
  - exact I.
Defined.

(** A 502 answer with an HTML body. *)
Lemma make_request_error_body_unusable_witness :
  exists e,
    make_request (mock (inr bad_gateway)) "GET" "http://host/api/sas/" None
      "" None false (module_loaded tt)
    = (Raise e,
       State [∅] [[]]
             [Text ("HTTP error occurred: " +:+ http_error_msg bad_gateway)]
             [Request "GET" "http://host/api/sas/" ∅ "" []] tt)
    /\ (exn_cls e = JSONDecodeError \/ exn_cls e = KeyError
        \/ exn_cls e = TypeError).
Proof.
  apply (make_request_error_body_unusable (mock (inr bad_gateway)) "GET"
           "http://host/api/sas/" None "" None false (module_loaded tt)
           bad_gateway).
  - reflexivity.
  - cbn. lia.
  - intros fields err H. discriminate H.
Defined.

(** The user interrupts the request. *)
Lemma make_request_lets_through_witness :
  make_request (mock (inl (Exn KeyboardInterrupt ""))) "GET"
    "http://host/api/sas/" None "" None false (module_loaded tt)
  = (Raise (Exn KeyboardInterrupt ""),
     State [∅] [[]] [] [Request "GET" "http://host/api/sas/" ∅ "" []] tt).
Proof.
  apply (make_request_lets_through (mock (inl (Exn KeyboardInterrupt "")))
           "GET" "http://host/api/sas/" None "" None false (module_loaded tt)
           (Exn KeyboardInterrupt "")).
  - reflexivity.
  - reflexivity.
Defined.

(** ** More on the endpoint functions *)

Ltac unfold_endpoints :=
  unfold get_metadata_server_config, get_license_info,
    get_workspace_server_list, get_workspace_server_config,
    get_stp_server_list, get_stp_server_config, get_user_list,
    get_configured_user_info, get_user_info, get_group_list,
    get_group_info, get_role_list, get_role_info, create_library,
    delete_library, find_object, move_object, delete_object,
    execute_command, get_library_list, get_library_info,
    get_dataset_list, get_dataset_info, retrieve_data, insert_data,
    replace_all_data, delete_dataset.

Ltac split_arguments :=
  repeat match goal with
         | |- context [match ?o with Some _ => _ | None => _ end] =>
             is_var o; destruct o
         | |- context [if ?b then _ else _] => is_var b; destruct b
         end.

Section MoreEndpoints.
Context {Remote : Type}.
Variable serve : Remote -> request -> (exn + response) * Remote.

Lemma run_client_call_effect (c : client_call) (s : state Remote) :
  exists req out,
    sent (run_client_call serve c s).2 = sent s ++ [req]
    /\ stdout (run_client_call serve c s).2 = stdout s ++ out.
Proof.
  destruct c as [c | method url ip data jd p]; cbn [run_client_call].
  - destruct (run_call_same_effect serve c s s (agree_refl s))
      as (_ & (out & Ho & _) & (req & Hs & _) & _).
    now exists req, out.
  - destruct (make_request_state serve method url ip data jd p s)
      as (r & out & E).
    eexists _, out. now rewrite E.
Qed.

(** X10: one call of the library per call, never a second try.  A client
    that makes [n] calls, of the endpoint functions or of [make_request],
    has made [requests.request] be called exactly [n] times after them,
    whether the calls succeeded or failed; the record of the earlier
    calls and what was printed before are still there. *)
Theorem one_library_call_per_call (cs : list client_call) (s : state Remote) :
  exists reqs out,
    sent (run_client serve cs s) = sent s ++ reqs
    /\ length reqs = length cs
    /\ stdout (run_client serve cs s) = stdout s ++ out.
Proof.
  revert s. induction cs as [|c cs IH]; intros s; cbn [run_client].
  - exists [], []. now rewrite !app_nil_r.
  - destruct (run_client_call_effect c s) as (req & out1 & Hs1 & Ho1).
    destruct (IH (run_client_call serve c s).2)
      as (reqs & out2 & Hs2 & Hlen & Ho2).
    exists (req :: reqs), (out1 ++ out2).
    rewrite Hs2, Ho2, Hs1, Ho1, <- !app_assoc. cbn. now rewrite Hlen.
Qed.

(** X11: every endpoint function asks for a URL that [assemble_url] makes
    from its [url] argument and a path below ["sas/"]. *)
Theorem endpoint_url_below_sas (c : call) (s : state Remote) :
  exists req path,
    sent (run_call serve c s).2 = sent s ++ [req]
    /\ req_url req = assemble_url (base_url c) ("sas/" +:+ path).
Proof.
  destruct c as [| | | | | | | | | | | | | | | op | | |];
    try destruct op; cbn [run_call call_scoped base_url];
    unfold_endpoints; split_arguments; sent_request;
    eexists; eexists; (split; [reflexivity|]); reflexivity.
Qed.

(** X12: each of the eleven metadata look-ups sends a GET request whose
    only parameter is [repositoryName], without a body of its own; the
    JSON argument is the shared default list. *)
Theorem metadata_lookup_request (c : call) (repository_name : string)
    (s : state Remote) :
  metadata_lookup c = Some repository_name ->
  exists req,
    sent (run_call serve c s).2 = sent s ++ [req]
    /\ req_method req = "GET"
    /\ req_params req = {[ "repositoryName" := VStr repository_name ]}
    /\ req_data req = ""
    /\ req_json req = list_at s default_json_data.
Proof.
  destruct c; cbn [metadata_lookup]; try discriminate;
    intros [= <-]; cbn [run_call]; unfold_endpoints; sent_request;
    (eexists; split; [reflexivity|]); repeat split.
Qed.

(** X13: without [server_name], [repository_name] is not used: the nine
    target-scoped functions do the same for any two repository names. *)
Theorem repository_name_needs_server_name (op : scoped_op) (url : string)
    (repository1 repository2 : string) (server_url : option string)
    (server_port : option value) (only_payload : bool) (s : state Remote) :
  call_scoped serve op url None repository1 server_url server_port
    only_payload s
  = call_scoped serve op url None repository2 server_url server_port
      only_payload s.
Proof. now destruct op, server_url, server_port. Qed.

(** X14: without [server_name] and with both [server_url] and
    [server_port], the nine target-scoped functions ask for the unscoped
    path and attach the pair as [serverUrl] and [serverPort]; no
    [repositoryName] goes with it. *)
Theorem url_port_pair_attached (op : scoped_op) (url : string)
    (repository_name server_url : string) (server_port : value)
    (only_payload : bool) (s : state Remote) :
  exists req,
    sent (call_scoped serve op url None repository_name (Some server_url)
            (Some server_port) only_payload s).2 = sent s ++ [req]
    /\ req_url req = assemble_url url ("sas/" +:+ resource op)
    /\ req_params req !! "serverUrl" = Some (VStr server_url)
    /\ req_params req !! "serverPort" = Some server_port
    /\ req_params req !! "repositoryName" = None.
Proof.
  destruct op; cbn [call_scoped]; unfold_endpoints; split_arguments;
    sent_request; (eexists; split; [reflexivity|]);
    cbn [req_url req_params]; repeat split; reflexivity.
Qed.
End MoreEndpoints.

(** The list of the groups. *)
Lemma metadata_lookup_request_witness :
  exists req,
    sent (run_call (mock (inr ok_envelope))
            (GetGroupList "http://host/api" "Foundation" true)
            (module_loaded tt)).2 = sent (module_loaded tt) ++ [req]
    /\ req_method req = "GET"
    /\ req_params req = {[ "repositoryName" := VStr "Foundation" ]}
    /\ req_data req = ""
    /\ req_json req = list_at (module_loaded tt) default_json_data.
Proof.
  apply (metadata_lookup_request (mock (inr ok_envelope))
           (GetGroupList "http://host/api" "Foundation" true) "Foundation"
           (module_loaded tt)).
  reflexivity.
Defined.

(** ** The notice, the optional parameters and the shared paths *)

Section MoreRequests.
Context {Remote : Type}.
Variable serve : Remote -> request -> (exn + response) * Remote.

(** The first line that [make_request] prints, if it prints any, is one
    of its three formatted messages, and so not the notice about the
    default server. *)
Lemma make_request_first_line (method url : string)
    (ip : option loc) (data : string) (jd : option loc) (p : bool)
    (s : state Remote) :
  exists out,
    stdout (make_request serve method url ip data jd p s).2 = stdout s ++ out
    /\ head out <> Some default_server_notice
    /\ (forall l, head out = Some l -> exists t, l = Text t).
Proof.
  rewrite make_request_eq. cbv zeta.
  destruct (serve (remote s) (request_for s method url ip data jd))
    as [[e|resp] r]; cbn [fst snd].
  - cbn. unfold except_clauses.
    destruct (is_HTTPError e); [|destruct (is_Exception e)]; cbn;
      eexists;
      (split; [first [reflexivity | symmetry; apply app_nil_r]|]);
      cbn [head];
      (split; [discriminate|]);
      intros l H; first [discriminate H | injection H as <-; now eexists].
  - unfold after_answer, try_except_else, raise_for_status.
    destruct (String.eqb (http_error_msg resp) ""); cbn.
    + unfold bind, response_json.
      destruct p; destruct (json_body resp) as [msg|body]; cbn;
        try destruct body; cbn; try destruct (assoc "payload" items); cbn;
        eexists; (split; [reflexivity|]); cbn [head];
        (split; [discriminate|]);
        intros l H; injection H as <-; now eexists.
    + unfold except_clauses, bind, response_json. cbn.
      destruct (json_body resp) as [msg|body]; cbn;
        try destruct body; cbn; try destruct (assoc "error" items); cbn;
        rewrite <- ?app_assoc; eexists; (split; [reflexivity|]);
        cbn [head]; (split; [discriminate|]);
        intros l H; injection H as <-; now eexists.
Qed.


(** X16: [execute_command] sends the command as the body of a PUT request
    and [logEnabled] as the text ["true"] or ["false"], whichever way the
    target server is chosen; the shared default list goes along as the
    JSON argument. *)
Theorem execute_command_request (url command : string)
    (server_name : option string) (repository_name : string)
    (server_url : option string) (server_port : option value)
    (log_enabled only_payload : bool) (s : state Remote) :
  exists req,
    sent (execute_command serve url command server_name repository_name
            server_url server_port log_enabled only_payload s).2
    = sent s ++ [req]
    /\ req_method req = "PUT"
    /\ req_data req = command
    /\ req_params req !! "logEnabled"
       = Some (VStr (if log_enabled then "true" else "false"))
    /\ req_json req = list_at s default_json_data.
Proof.
  unfold execute_command; split_arguments; sent_request;
    (eexists; split; [reflexivity|]); repeat split.
Qed.

(** X17: [retrieve_data] sends [limit] and [offset] as they are given,
    without a bound of its own, and [filter] only when a filter is given:
    with [filter_=None] the dictionary has no such key. *)
Theorem retrieve_data_window (url library_name dataset_name : string)
    (server_name : option string) (repository_name : string)
    (server_url : option string) (server_port : option value)
    (limit offset : Z) (filter_ : option string) (only_payload : bool)
    (s : state Remote) :
  exists req,
    sent (retrieve_data serve url library_name dataset_name server_name
            repository_name server_url server_port limit offset filter_
            only_payload s).2 = sent s ++ [req]
    /\ req_method req = "GET"
    /\ req_params req !! "limit" = Some (VInt limit)
    /\ req_params req !! "offset" = Some (VInt offset)
    /\ req_params req !! "filter" = VStr <$> filter_.
Proof.
  unfold retrieve_data; split_arguments; sent_request;
    (eexists; split; [reflexivity|]); repeat split.
Qed.

(** X18: [insert_data] and [replace_all_data] hand the caller's list to
    the library as it is, by reference, and leave it unchanged;
    [insert_data] is a PUT that carries [byKey] only when a key is given,
    [replace_all_data] a POST that never carries it. *)
Theorem upload_passes_list (url library_name dataset_name : string)
    (json_data : loc) (server_name : option string)
    (repository_name : string) (server_url : option string)
    (server_port : option value) (by_key : option string)
    (only_payload : bool) (s : state Remote) :
  (exists req,
      sent (insert_data serve url library_name dataset_name json_data
              server_name repository_name server_url server_port by_key
              only_payload s).2 = sent s ++ [req]
      /\ req_method req = "PUT"
      /\ req_json req = list_at s json_data
      /\ req_params req !! "byKey" = VStr <$> by_key)
  /\ (exists req,
         sent (replace_all_data serve url library_name dataset_name
                 json_data server_name repository_name server_url
                 server_port only_payload s).2 = sent s ++ [req]
         /\ req_method req = "POST"
         /\ req_json req = list_at s json_data
         /\ req_params req !! "byKey" = None)
  /\ lists (insert_data serve url library_name dataset_name json_data
              server_name repository_name server_url server_port by_key
              only_payload s).2 = lists s
  /\ lists (replace_all_data serve url library_name dataset_name json_data
              server_name repository_name server_url server_port
              only_payload s).2 = lists s.
Proof.
  split; [|split; [|split]].
  - unfold insert_data; split_arguments; sent_request;
      (eexists; split; [reflexivity|]); repeat split.
  - unfold replace_all_data; split_arguments; sent_request;
      (eexists; split; [reflexivity|]); repeat split.
  - unfold insert_data; split_arguments; sent_request; reflexivity.
  - unfold replace_all_data; split_arguments; sent_request; reflexivity.
Qed.
End MoreRequests.

(** ** Functions that share a path, and the defaults at work *)

Section SharedPaths.
Context {Remote : Type}.
Variable serve : Remote -> request -> (exn + response) * Remote.

(** X19: reading, inserting into, replacing and deleting a dataset all go
    to one and the same URL, the dataset's [.../data] path, for the same
    target server; they differ by the method: GET, PUT, POST and DELETE.
    [delete_dataset] thus addresses the data path, not the dataset's
    own. *)
Theorem dataset_functions_share_url (url library_name dataset_name : string)
    (server_name : option string) (repository_name : string)
    (server_url : option string) (server_port : option value)
    (limit offset : Z) (filter_ by_key : option string) (json_data : loc)
    (only_payload : bool) (s : state Remote) :
  exists get put post delete,
    sent (retrieve_data serve url library_name dataset_name server_name
            repository_name server_url server_port limit offset filter_
            only_payload s).2 = sent s ++ [get]
    /\ sent (insert_data serve url library_name dataset_name json_data
               server_name repository_name server_url server_port by_key
               only_payload s).2 = sent s ++ [put]
    /\ sent (replace_all_data serve url library_name dataset_name json_data
               server_name repository_name server_url server_port
               only_payload s).2 = sent s ++ [post]
    /\ sent (delete_dataset serve url library_name dataset_name server_name
               repository_name server_url server_port only_payload s).2
       = sent s ++ [delete]
    /\ req_url put = req_url get
    /\ req_url post = req_url get
    /\ req_url delete = req_url get
    /\ req_method get = "GET" /\ req_method put = "PUT"
    /\ req_method post = "POST" /\ req_method delete = "DELETE"
    /\ exists ending, req_url get = assemble_url url (ending +:+ "/data").
Proof.
  unfold retrieve_data, insert_data, replace_all_data, delete_dataset;
    split_arguments; do 4 sent_request;
    do 4 eexists; repeat (split; [reflexivity|]);
    eexists; cbn [req_url];
    rewrite <- ?PyStrFacts.append_assoc; reflexivity.
Qed.

(** X20: a library is created, looked up by server name and deleted at
    one and the same URL, with POST, GET and DELETE; [create_library]
    sends its five descriptions and [isPreassigned] as the text ["true"]
    or ["false"]. *)
Theorem library_functions_share_url
    (url server_name library_name engine display_name path location
     repository_name : string) (is_preassigned : bool)
    (server_url : option string) (server_port : option value)
    (only_payload : bool) (s : state Remote) :
  exists post get delete,
    sent (create_library serve url server_name library_name engine
            display_name path location repository_name is_preassigned
            only_payload s).2 = sent s ++ [post]
    /\ sent (get_library_info serve url library_name (Some server_name)
               repository_name server_url server_port only_payload s).2
       = sent s ++ [get]
    /\ sent (delete_library serve url server_name library_name
               repository_name only_payload s).2 = sent s ++ [delete]
    /\ req_url get = req_url post
    /\ req_url delete = req_url post
    /\ req_method post = "POST" /\ req_method get = "GET"
    /\ req_method delete = "DELETE"
    /\ req_params post !! "isPreassigned"
       = Some (VStr (if is_preassigned then "true" else "false"))
    /\ req_params post !! "engine" = Some (VStr engine)
    /\ req_params post !! "displayName" = Some (VStr display_name)
    /\ req_params post !! "path" = Some (VStr path)
    /\ req_params post !! "location" = Some (VStr location)
    /\ req_params post !! "repositoryName" = Some (VStr repository_name).
Proof.
  unfold create_library, get_library_info, delete_library;
    split_arguments; do 3 sent_request;
    do 3 eexists; repeat split.
Qed.

(** X21: the shared defaults at work.  Whatever calls a client has made
    since the module was loaded, [get_metadata_server_config] and
    [get_license_info], which pass no parameters of their own, send a GET
    request without parameters and with an empty JSON list. *)
Theorem module_queries_send_no_parameters (history : list client_call)
    (url : string) (only_payload : bool) (s : state Remote) :
  loaded s ->
  sent (get_metadata_server_config serve url only_payload
          (run_client serve history s)).2
  = sent (run_client serve history s)
    ++ [Request "GET" (assemble_url url "sas/") ∅ "" []]
  /\ sent (get_license_info serve url only_payload
             (run_client serve history s)).2
     = sent (run_client serve history s)
       ++ [Request "GET" (assemble_url url "sas/license") ∅ "" []].
Proof.
  intros Hs.
  destruct (run_client_loaded serve history s Hs) as [Hd Hl].
  unfold get_metadata_server_config, get_license_info.
  split.
  - destruct (make_request_state serve "GET" (assemble_url url "sas/") None
                "" None only_payload (run_client serve history s))
      as (r & out & E).
    rewrite E. cbn. unfold request_for, dict_at, list_at. cbn.
    unfold default_initial_params, default_json_data in *.
    now rewrite Hd, Hl.
  - destruct (make_request_state serve "GET"
                (assemble_url url "sas/license") None "" None only_payload
                (run_client serve history s)) as (r & out & E).
    rewrite E. cbn. unfold request_for, dict_at, list_at. cbn.
    unfold default_initial_params, default_json_data in *.
    now rewrite Hd, Hl.
Qed.

(** X22: [delete_object] sends its arguments under their own names:
    [public_type] goes under ["publicType"], where [move_object] puts the
    destination, and no destination is sent. *)
Theorem delete_object_request
    (url source_location source_name public_type repository_name : string)
    (only_payload : bool) (s : state Remote) :
  exists req,
    sent (delete_object serve url source_location source_name public_type
            repository_name only_payload s).2 = sent s ++ [req]
    /\ req_method req = "POST"
    /\ req_url req = assemble_url url "sas/meta/objects/delete"
    /\ req_params req !! "sourceLocation" = Some (VStr source_location)
    /\ req_params req !! "sourceName" = Some (VStr source_name)
    /\ req_params req !! "publicType" = Some (VStr public_type)
    /\ req_params req !! "repositoryName" = Some (VStr repository_name)
    /\ req_params req !! "destinationLocation" = None.
Proof.
  unfold delete_object. sent_request.
  eexists; split; [reflexivity|]. repeat split.
Qed.

(** X23: [find_object] checks nothing on the client side: whatever the
    criteria, and also when none is given, it sends its request, and its
    dictionary has the same twenty keys. *)
Theorem find_object_keys (url repository_name : string) (c : criteria)
    (only_payload : bool) (s : state Remote) :
  exists req,
    sent (run_call serve (FindObject url repository_name c only_payload)
            s).2 = sent s ++ [req]
    /\ req_method req = "GET"
    /\ dom (req_params req)
       = list_to_set
           ["repositoryName"; "location"; "locationRecursive"; "objectID";
            "objectType"; "publicType"; "nameEquals"; "nameStarts";
            "nameContains"; "nameRegex"; "descriptionContains";
            "descriptionRegex"; "createdGt"; "createdLt"; "modifiedGt";
            "modifiedLt"; "tableLibref"; "tableDBMS";
            "includeAssociations"; "includePermissions"].
Proof.
  cbn [run_call]. unfold find_object. sent_request.
  eexists; split; [reflexivity|]. split; [reflexivity|].
  cbn [req_params]. reflexivity.
Qed.
End SharedPaths.

(** A client that has called [get_library_list] and [move_object]. *)
Lemma module_queries_send_no_parameters_witness :
  let serve := mock (inr ok_envelope) in
  let history :=
    [Endpoint (Scoped GetLibraryList "http://host/api" (Some "SASApp")
                 "Foundation" None None true);
     Endpoint (MoveObject "http://host/api" "/a" "x" "Table" "/b"
                 "Foundation" false)] in
  sent (get_metadata_server_config serve "http://host/api" false
          (run_client serve history (module_loaded tt))).2
  = sent (run_client serve history (module_loaded tt))
    ++ [Request "GET" (assemble_url "http://host/api" "sas/") ∅ "" []]
  /\ sent (get_license_info serve "http://host/api" false
             (run_client serve history (module_loaded tt))).2
     = sent (run_client serve history (module_loaded tt))
       ++ [Request "GET" (assemble_url "http://host/api" "sas/license") ∅
             "" []].
Proof.
  intros serve history.
  apply (module_queries_send_no_parameters serve history "http://host/api"
           false (module_loaded tt)).
  split; reflexivity.
Defined.
